(** * ZapNone: the host-mode ZAP scanner driver (scanners/zap/zap_none.py)

    A shallow embedding of the [ZapNone] class: its four lifecycle phases
    ([setup], [run], [postprocess], [cleanup]), the Ajax-spider resource
    check, the plugin viability check and the addon update pass.

    Python objects are mutated in place and exceptions leave earlier
    mutations standing, so every method is a function from a store (the
    scanner object and the host it runs on) to an outcome: the store it
    leaves, the effects it performed in order, and either a value or the
    exception it raised. *)

From Stdlib Require Import ZArith String Ascii List Bool Lia.
From stdpp Require Import base decidable gmap strings list.
Import ListNotations.

Local Open Scope string_scope.
Local Open Scope Z_scope.

(** ** Python values *)

(** The values a configuration entry or a command token can hold. *)
#[warnings="-register-all"]
Inductive pyval : Type :=
| PNone
| PBool (b : bool)
| PInt (z : Z)
| PStr (s : string)
| PDict (items : list (string * pyval)).

(** [v is False] *)
Definition is_False (v : pyval) : bool :=
  match v with
  | PBool false => true
  | _ => false
  end.

(** [tok == "<s>"] for a command token. *)
Definition tok_is (s : string) (tok : pyval) : bool :=
  match tok with
  | PStr t => String.eqb t s
  | _ => false
  end.

(** ** Strings and bytes *)

(** [str.split(".")] *)
Fixpoint split_dots (s : string) : list string :=
  match s with
  | EmptyString => [EmptyString]
  | String c rest =>
      if Ascii.eqb c "."%char then EmptyString :: split_dots rest
      else match split_dots rest with
           | w :: ws => String c w :: ws
           | [] => [String c EmptyString]
           end
  end.

(** [s.startswith(sub)] *)
Fixpoint startswith (sub s : string) : bool :=
  match sub, s with
  | EmptyString, _ => true
  | String a sub', String b s' => Ascii.eqb a b && startswith sub' s'
  | String _ _, EmptyString => false
  end.

(** [bytes.find(sub)] counted from offset [i]: the lowest index at which
    [sub] occurs, or [-1]. *)
Fixpoint find_from (sub s : string) (i : Z) : Z :=
  if startswith sub s then i
  else match s with
       | EmptyString => -1
       | String _ s' => find_from sub s' (i + 1)
       end.

Definition find (s sub : string) : Z := find_from sub s 0.

(** ** The scanner state enumeration ([scanners.State]) *)

(** Modelled from the spec: the enumeration [State] is imported from the
    [scanners] package, whose source is not part of this unit; the members
    are the ones the data model lists. *)
Inductive State : Type :=
| UNCONFIGURED | READY | DONE | ERROR | PROCESSED | CLEANEDUP.

#[global] Instance State_eq_dec : EqDecision State.
Proof. solve_decision. Defined.

(** ** Exceptions, log records and effects *)

(** [subprocess.CompletedProcess]; [stderr] is only read by the caller that
    asked for [capture_output=True]. *)
Record CompletedProcess : Type := mkProc {
  returncode : Z;
  stdout : string;
  stderr : string
}.

(** A value substituted into an f-string. *)
Inductive Arg : Type :=
| AInt (z : Z)
| AStr (s : string)
| ABytes (b : string)
| AVal (v : pyval)
| ACmd (cmd : list pyval)
| AState (st : State)
| AProc (p : CompletedProcess).

(** The exception classes the module raises or handles.  A message is kept
    as the f-string template together with the values substituted in it. *)
Inductive exn : Type :=
| RuntimeError (msg : string) (args : list Arg)
| FileNotFoundError (path : string)
| FileExistsError (path : string)
| KeyError (key : string)
| ValueError (literal : string)
| OtherError (name : string).

Inductive Level : Type := DEBUG | INFO | WARNING.

#[global] Instance Level_eq_dec : EqDecision Level.
Proof. solve_decision. Defined.

(** What the process does to the outside world, in program order. *)
Inductive Event : Type :=
| Log (lvl : Level) (msg : string) (args : list Arg)
      (* logging.debug / logging.info / logging.warning *)
| Exec (cmd : list pyval) (capture_output : bool)
      (* subprocess.run(cmd, check=False, capture_output=...) *)
| Download (url dest : string) (proxy : pyval)
      (* anonymous_download(url=, dest=, proxy=) *)
| Remove (path : string)                       (* os.remove *)
| Mkdir (path : string)                        (* os.mkdir *)
| Access (path : string)                       (* os.access(path, os.W_OK) *)
| PlatformSystem                               (* platform.system() *)
| DiskUsage (path : string)                    (* shutil.disk_usage *)
| OpenRead (path : string).                    (* open(path) + readline *)

(** ** The store: scanner object and host *)

Record Scanner : Type := mkScanner {
  state : State;                 (* self.state *)
  ident : string;                (* self.ident *)
  config : pyval;                (* self.config, as a nested dictionary *)
  zap_cli : list pyval;          (* self.zap_cli *)
  host_home_dir : string;        (* self.host_home_dir *)
  container_home_dir : string;   (* self.container_home_dir *)
  host_policies_dir : string;    (* self.host_policies_dir *)
  container_policies_dir : string (* self.container_policies_dir *)
}.

Record Host : Type := mkHost {
  files : gset string;           (* paths that exist *)
  writable : gset string;        (* paths for which os.access(p, W_OK) holds *)
  environ : gmap string string;  (* os.environ *)
  system : string;               (* what platform.system() returns *)
  shm_total : option Z;          (* disk_usage("/dev/shm/").total; None when
                                    /dev/shm does not exist *)
  pids_max : option string       (* f.readline().rstrip() on
                                    /sys/fs/cgroup/pids.max; None when the file
                                    cannot be opened *)
}.

Record Store : Type := mkStore { self : Scanner; host : Host }.

Definition with_state (st : State) (sc : Scanner) : Scanner :=
  mkScanner st (ident sc) (config sc) (zap_cli sc) (host_home_dir sc)
            (container_home_dir sc) (host_policies_dir sc)
            (container_policies_dir sc).

Definition with_files (fs : gset string) (h : Host) : Host :=
  mkHost fs (writable h) (environ h) (system h) (shm_total h) (pids_max h).

Definition with_environ (env : gmap string string) (h : Host) : Host :=
  mkHost (files h) (writable h) env (system h) (shm_total h) (pids_max h).

(** ** The effect monad *)

Inductive Res (A : Type) : Type :=
| Ok (a : A)
| Raised (e : exn).
Arguments Ok {A} a.
Arguments Raised {A} e.

Record Outcome (A : Type) : Type := mkOutcome {
  final : Store;          (* the store the call leaves behind *)
  events : list Event;    (* the effects it performed, oldest first *)
  result : Res A          (* its return value, or the exception raised *)
}.
Arguments mkOutcome {A} _ _ _.
Arguments final {A} _.
Arguments events {A} _.
Arguments result {A} _.

Definition M (A : Type) : Type := Store -> Outcome A.

Definition ret {A} (a : A) : M A := fun s => mkOutcome s [] (Ok a).

Definition raise {A} (e : exn) : M A := fun s => mkOutcome s [] (Raised e).

(** [ev], then whatever [o] did. *)
Definition after {A} (ev : list Event) (o : Outcome A) : Outcome A :=
  mkOutcome (final o) (ev ++ events o) (result o).

Definition bind {A B} (m : M A) (k : A -> M B) : M B :=
  fun s =>
    let o := m s in
    match result o with
    | Ok a => after (events o) (k a (final o))
    | Raised e => mkOutcome (final o) (events o) (Raised e)
    end.

(** [try: m except ...: ...]: [clauses e] is the body of the first
    [except] clause whose class [e] is an instance of, if there is one.  An
    exception raised inside a clause is not handled by its siblings. *)
Definition try_except {A} (m : M A) (clauses : exn -> option (M A)) : M A :=
  fun s =>
    let o := m s in
    match result o with
    | Ok a => o
    | Raised e =>
        match clauses e with
        | Some handler => after (events o) (handler (final o))
        | None => o
        end
    end.

Declare Scope py_scope.
Delimit Scope py_scope with py.
Notation "x <- c ;; k" := (bind c (fun x => k))
  (at level 20, c at level 99, k at level 200, only parsing) : py_scope.
Notation "c ;; k" := (bind c (fun _ => k))
  (at level 100, k at level 200, only parsing, right associativity) : py_scope.
Local Open Scope py_scope.

Definition emit (e : Event) : M unit := fun s => mkOutcome s [e] (Ok tt).

Definition log (lvl : Level) (msg : string) (args : list Arg) : M unit :=
  emit (Log lvl msg args).

Definition get_self : M Scanner := fun s => mkOutcome s [] (Ok (self s)).

Definition get_host : M Host := fun s => mkOutcome s [] (Ok (host s)).

Definition set_state (st : State) : M unit :=
  fun s => mkOutcome (mkStore (with_state st (self s)) (host s)) [] (Ok tt).

Definition put_host (h : Host) : M unit :=
  fun s => mkOutcome (mkStore (self s) h) [] (Ok tt).

(** ** External collaborators *)

(** Modelled from the spec: the configuration model lives outside this
    unit.  It is queried by a dotted key path with an explicit default and
    never raises when the key is absent: the default is returned. *)
Fixpoint dict_get (k : string) (items : list (string * pyval)) : option pyval :=
  match items with
  | [] => None
  | (k', v) :: rest => if String.eqb k' k then Some v else dict_get k rest
  end.

Fixpoint walk (keys : list string) (v : pyval) : option pyval :=
  match keys with
  | [] => Some v
  | k :: ks =>
      match v with
      | PDict items =>
          match dict_get k items with
          | Some v' => walk ks v'
          | None => None
          end
      | _ => None
      end
  end.

Definition config_get (cfg : pyval) (path : string) (default : pyval) : pyval :=
  match walk (split_dots path) cfg with
  | Some v => v
  | None => default
  end.

(** Modelled from the spec: [Zap.my_conf] is inherited; it looks the key up
    under this scanner's own section of the configuration. *)
Definition my_conf (sc : Scanner) (path : string) (default : pyval) : pyval :=
  config_get (config sc) ("scanners." ++ ident sc ++ "." ++ path) default.

(** The inherited part of the class: the methods of the parent [Zap] that
    [ZapNone] calls, and the module constant it imports from it. *)
Class Zap : Type := {
  MODULE_DIR : string;
  _get_standard_options : Scanner -> list pyval;
  get_update_command : Scanner -> list pyval;
  _zap_cli_list_to_str_for_sh : list pyval -> string;
  _include_file : string -> string -> M unit;  (* host_path, dest_in_container *)
  _create_temp_dir : string -> M string;
  Zap_setup : M unit;                          (* super().setup() *)
  Zap_postprocess : M unit;                    (* super().postprocess() *)
  Zap_cleanup : M unit;                        (* super().cleanup() *)
  Zap__setup_ajax_spider : M unit              (* super()._setup_ajax_spider() *)
}.

(** What lies outside the program: the child processes, the network and the
    two Python builtins whose result depends on more than the model keeps. *)
Class Outside : Type := {
  (* what running a command does to the host, and how it ends *)
  spawn : list pyval -> Host -> Host * Res CompletedProcess;
  (* scanners.downloaders.anonymous_download *)
  fetch : string -> string -> pyval -> Host -> Host * Res unit;
  (* int(s): None stands for ValueError *)
  int : string -> option Z;
  (* str(v), as used by an f-string *)
  str : pyval -> string
}.

Section ZapNone.

Context {parent : Zap} {outside : Outside}.

(** ** Operating-system primitives *)

Definition subprocess_run (cmd : list pyval) (capture_output : bool)
  : M CompletedProcess :=
  emit (Exec cmd capture_output) ;;
  h <- get_host ;;
  let (h', r) := spawn cmd h in
  put_host h' ;;
  match r with
  | Ok p => ret p
  | Raised e => raise e
  end.

Definition anonymous_download (url dest : string) (proxy : pyval) : M unit :=
  emit (Download url dest proxy) ;;
  h <- get_host ;;
  let (h', r) := fetch url dest proxy h in
  put_host h' ;;
  match r with
  | Ok _ => ret tt
  | Raised e => raise e
  end.

(** [os.remove(path)]: the path goes away, or [FileNotFoundError]. *)
Definition os_remove (path : string) : M unit :=
  emit (Remove path) ;;
  h <- get_host ;;
  if bool_decide (path ∈ files h)
  then put_host (with_files (files h ∖ {[path]}) h)
  else raise (FileNotFoundError path).

(** [os.mkdir(path)]: the path appears, or [FileExistsError]. *)
Definition os_mkdir (path : string) : M unit :=
  emit (Mkdir path) ;;
  h <- get_host ;;
  if bool_decide (path ∈ files h)
  then raise (FileExistsError path)
  else put_host (with_files ({[path]} ∪ files h) h).

(** [os.access(path, os.W_OK)] *)
Definition os_access_W_OK (path : string) : M bool :=
  emit (Access path) ;;
  h <- get_host ;;
  ret (bool_decide (path ∈ writable h)).

Definition platform_system : M string :=
  emit PlatformSystem ;;
  h <- get_host ;;
  ret (system h).

(** [disk_usage(path).total] *)
Definition disk_usage_total (path : string) : M Z :=
  emit (DiskUsage path) ;;
  h <- get_host ;;
  match shm_total h with
  | Some n => ret n
  | None => raise (FileNotFoundError path)
  end.

(** [with open(path) as f: f.readline().rstrip()] *)
Definition open_readline_rstrip (path : string) : M string :=
  emit (OpenRead path) ;;
  h <- get_host ;;
  match pids_max h with
  | Some line => ret line
  | None => raise (FileNotFoundError path)
  end.

Definition py_int (s : string) : M Z :=
  match int s with
  | Some n => ret n
  | None => raise (ValueError s)
  end.

(** ** Private and overloaded methods *)

Definition MARKER : string := "The mandatory add-on was not found:".

Definition URL_ROOT : string :=
  "https://github.com/zaproxy/zap-extensions/releases/download".

(** [ZapNone._check_plugin_status] *)
Definition _check_plugin_status : M unit :=
  log INFO "Zap: verifying the viability of ZAP" [] ;;
  sc <- get_self ;;
  let command :=
    ([my_conf sc "container.parameters.executable" PNone]
       ++ _get_standard_options sc
       ++ [PStr "-dir"; PStr (container_home_dir sc)]
       ++ [PStr "-cmd"])%list in
  log DEBUG "ZAP create home command: {command}" [ACmd command] ;;
  result <- subprocess_run command true ;;
  if returncode result =? 0 then
    log DEBUG "ZAP appears to be in a correct state" []
  else if find (stderr result) MARKER >? 0 then
    log INFO "Missing mandatory plugins. Fixing" [] ;;
    sc <- get_self ;;
    anonymous_download
      (URL_ROOT ++ "/callhome-v0.6.0/callhome-release-0.6.0.zap")
      (host_home_dir sc ++ "/plugin/callhome-release-0.6.0.zap")
      (my_conf sc "proxy" PNone) ;;
    sc <- get_self ;;
    anonymous_download
      (URL_ROOT ++ "/network-v0.9.0/network-beta-0.9.0.zap")
      (host_home_dir sc ++ "/plugin/network-beta-0.9.0.zap")
      (my_conf sc "proxy" PNone) ;;
    log INFO "Workaround: installing all addons" [] ;;
    sc <- get_self ;;
    let command :=
      ([my_conf sc "container.parameters.executable" PNone]
         ++ _get_standard_options sc
         ++ [PStr "-dir"; PStr (container_home_dir sc)]
         ++ [PStr "-cmd"]
         ++ [PStr "-addoninstallall"])%list in
    log DEBUG "ZAP: installing all addons: {command}" [ACmd command] ;;
    result <- subprocess_run command false ;;
    ret tt
  else
    log WARNING "ZAP appears to be in a incorrect state. Error: {result.stderr}"
        [ABytes (stderr result)].

(** [ZapNone._handle_plugins] *)
Definition _handle_plugins : M unit :=
  sc <- get_self ;;
  let command := get_update_command sc in
  match command with
  | [] => log DEBUG "Skpping addon handling: no install, no update" []
  | _ :: _ =>
      let command :=
        (command ++ [PStr "-dir"; PStr (container_home_dir sc)])%list in
      let shell :=
        [PStr "sh"; PStr "-c"; PStr (_zap_cli_list_to_str_for_sh command)] in
      log DEBUG "Addons setup command: {shell}" [ACmd shell] ;;
      result <- subprocess_run shell false ;;
      if negb (returncode result =? 0) then
        log WARNING
            "ZAP did not handle the addon requirements correctly, and exited with code {result.returncode}"
            [AInt (returncode result)]
      else ret tt
  end.

(** [ZapNone._create_home_if_needed] *)
Definition _create_home_if_needed : M unit :=
  h <- get_host ;;
  match environ h !! "HOME" with
  | None => raise (KeyError "HOME")
  | Some home =>
      w <- os_access_W_OK home ;;
      if w then ret tt
      else
        d <- _create_temp_dir "home" ;;
        h <- get_host ;;
        put_host (with_environ (<["HOME" := d]> (environ h)) h) ;;
        log DEBUG "Replaced HOME directory, to {os.environ['HOME']}" [AStr d]
  end.

(** [ZapNone._add_env] *)
Definition _add_env (key : string) (value : option string) : M unit :=
  match value with
  | Some v =>
      h <- get_host ;;
      put_host (with_environ (<[key := v]> (environ h)) h)
  | None => ret tt
  end.

Definition GiB : Z := 1024 * 1024 * 1024.

(** The two [try] statements of [_setup_ajax_spider], in source order. *)
Definition check_shared_memory : M unit :=
  try_except
    (shm <- disk_usage_total "/dev/shm/" ;;
     log DEBUG "Shared mem size: {shm} bytes" [AInt shm] ;;
     if shm <=? GiB then
       log WARNING
           "Insufficient shared memory to run an Ajax Spider correctly ({shm} bytes). Make sure that /dev/shm/ is at least 1GB in size [ideally at least 2GB]"
           [AInt shm]
     else ret tt)
    (fun e =>
       match e with
       | FileNotFoundError _ =>
           Some (log WARNING
                     "/dev/shm not present. Unable to calcuate shared memory size" [])
       | _ => None
       end).

Definition check_pid_limit : M unit :=
  try_except
    (pid_val <- open_readline_rstrip "/sys/fs/cgroup/pids.max" ;;
     enough <- (if String.eqb pid_val "max" then ret true
                else n <- py_int pid_val ;; ret (n >? 10000)) ;;
     if enough : bool then
       log DEBUG "cgroup v2 has a sufficient pid limit: {pid_val}" [AStr pid_val]
     else
       log WARNING
           "Number of threads may be too low for SpiderAjax: cgroupv2 pids.max={pid_val}"
           [AStr pid_val])
    (fun e =>
       match e with
       | FileNotFoundError _ =>
           Some (log DEBUG "No cgroupv2 pids.max: assume root cgroup" [])
       | ValueError lit =>
           Some (log WARNING "Unable to parse cgroupv2 pids.max: {e}" [AStr lit])
       | _ => None
       end).

(** [ZapNone._setup_ajax_spider] *)
Definition _setup_ajax_spider : M unit :=
  sc <- get_self ;;
  if is_False (my_conf sc "spiderAjax" (PBool false)) then ret tt
  else
    sys <- platform_system ;;
    (if String.eqb sys "Linux" then
       check_shared_memory ;;
       check_pid_limit
     else ret tt) ;;
    Zap__setup_ajax_spider.

(** ** Public methods *)

(** The block of [setup] under "Copy the policy to ZAP's policies
    directory into the temporary home". *)
Definition copy_policy : M unit :=
  sc <- get_self ;;
  if negb (is_False (my_conf sc "activeScan" (PBool false))) then
    let policy := my_conf sc "activeScan.policy" (PStr "API-scan-minimal") in
    os_mkdir (host_policies_dir sc) ;;
    sc <- get_self ;;
    _include_file
      (MODULE_DIR ++ "/policies/" ++ str policy ++ ".policy")
      (container_policies_dir sc ++ "/" ++ str policy ++ ".policy")
  else ret tt.

(** [ZapNone.setup] *)
Definition setup : M unit :=
  sc <- get_self ;;
  if negb (bool_decide (state sc = UNCONFIGURED)) then
    raise (RuntimeError "ZAP setup encounter an unexpected state: {self.state}"
                        [AState (state sc)])
  else
    Zap_setup ;;
    copy_policy ;;
    sc <- get_self ;;
    (if negb (bool_decide (state sc = ERROR)) then set_state READY else ret tt) ;;
    _create_home_if_needed.

(** The block [run] executes twice, before and after [_handle_plugins]:
    [statefile = f"{self.host_home_dir}/add-ons-state.xml"], then
    [os.remove(statefile)] inside [try ... except FileNotFoundError]. *)
Definition remove_statefile : M unit :=
  sc <- get_self ;;
  let statefile := host_home_dir sc ++ "/add-ons-state.xml" in
  try_except
    (os_remove statefile)
    (fun e =>
       match e with
       | FileNotFoundError _ =>
           Some (log INFO "The addon state file {statefile} was not created"
                     [AStr statefile])
       | _ => None
       end).

(** The tail of [run], from "Now the real run" on. *)
Definition real_run : M unit :=
  sc <- get_self ;;
  log INFO "Running ZAP with the following command:\n{self.zap_cli}"
      [ACmd (zap_cli sc)] ;;
  let cli :=
    [PStr "sh"; PStr "-c"; PStr (_zap_cli_list_to_str_for_sh (zap_cli sc))] in
  result <- subprocess_run cli false ;;
  log DEBUG "ZAP returned the following:\n=====\n{pp.pformat(result)}\n====="
      [AProc result] ;;
  if existsb (Z.eqb (returncode result)) [0; 2] then
    log INFO
        "The ZAP process finished with no errors, and exited with code {result.returncode}"
        [AInt (returncode result)] ;;
    set_state DONE
  else
    log WARNING
        "The ZAP process did not finish correctly, and exited with code {result.returncode}"
        [AInt (returncode result)] ;;
    set_state ERROR.

(** [ZapNone.run] *)
Definition run : M unit :=
  log INFO "Running up the ZAP scanner on the host" [] ;;
  sc <- get_self ;;
  if negb (bool_decide (state sc = READY)) then
    raise (RuntimeError "[ZAP SCANNER]: ERROR, not ready to run" [])
  else
    _check_plugin_status ;;
    remove_statefile ;;
    _handle_plugins ;;
    remove_statefile ;;
    real_run.

(** [ZapNone.postprocess] *)
Definition postprocess : M unit :=
  log INFO "Running postprocess for the ZAP Host environment" [] ;;
  Zap_postprocess ;;
  sc <- get_self ;;
  if negb (bool_decide (state sc = ERROR)) then set_state PROCESSED else ret tt.

(** [ZapNone.cleanup] *)
Definition cleanup : M unit :=
  log INFO "Running cleanup for the ZAP Host environment" [] ;;
  sc <- get_self ;;
  if negb (bool_decide (state sc = PROCESSED)) then
    raise (RuntimeError "No cleanning up as ZAP did not processed results." [])
  else
    Zap_cleanup ;;
    sc <- get_self ;;
    if negb (bool_decide (state sc = ERROR)) then set_state CLEANEDUP else ret tt.

End ZapNone.

(** ** Vocabulary of the properties *)

(** A computation that never touches the scanner object. *)
Definition keeps_self {A} (m : M A) : Prop :=
  forall s, self (final (m s)) = self s.

Section Vocabulary.

Context {parent : Zap} {outside : Outside}.

(** The two command lines [_check_plugin_status] builds. *)
Definition viability_command (sc : Scanner) : list pyval :=
  ([my_conf sc "container.parameters.executable" PNone]
     ++ _get_standard_options sc
     ++ [PStr "-dir"; PStr (container_home_dir sc)]
     ++ [PStr "-cmd"])%list.

Definition install_all_command (sc : Scanner) : list pyval :=
  ([my_conf sc "container.parameters.executable" PNone]
     ++ _get_standard_options sc
     ++ [PStr "-dir"; PStr (container_home_dir sc)]
     ++ [PStr "-cmd"]
     ++ [PStr "-addoninstallall"])%list.

Definition callhome_url : string :=
  URL_ROOT ++ "/callhome-v0.6.0/callhome-release-0.6.0.zap".

Definition network_url : string :=
  URL_ROOT ++ "/network-v0.9.0/network-beta-0.9.0.zap".

Definition callhome_dest (sc : Scanner) : string :=
  host_home_dir sc ++ "/plugin/callhome-release-0.6.0.zap".

Definition network_dest (sc : Scanner) : string :=
  host_home_dir sc ++ "/plugin/network-beta-0.9.0.zap".

Definition is_download (e : Event) : bool :=
  match e with Download _ _ _ => true | _ => false end.

Definition is_exec (e : Event) : bool :=
  match e with Exec _ _ => true | _ => false end.

Definition is_warning (e : Event) : bool :=
  match e with Log WARNING _ _ => true | _ => false end.

Definition is_remove (e : Event) : bool :=
  match e with Remove _ => true | _ => false end.

(** Everything [run] does between its guard and the main scan. *)
Definition run_prelude : M unit :=
  _check_plugin_status ;; remove_statefile ;; _handle_plugins ;; remove_statefile.

(** The command line of the main scan. *)
Definition main_command (sc : Scanner) : list pyval :=
  [PStr "sh"; PStr "-c"; PStr (_zap_cli_list_to_str_for_sh (zap_cli sc))].

(** [result.returncode in [0, 2]] *)
Definition classify (rc : Z) : State :=
  if existsb (Z.eqb rc) [0; 2] then DONE else ERROR.

Definition statefile (sc : Scanner) : string :=
  host_home_dir sc ++ "/add-ons-state.xml".

(** What the removal block does when the file is not there: the attempt,
    then one line at INFO. *)
Definition absent_trace (sc : Scanner) : list Event :=
  [Remove (statefile sc);
   Log INFO "The addon state file {statefile} was not created"
       [AStr (statefile sc)]].

Definition shm_warning (n : Z) : Event :=
  Log WARNING
      "Insufficient shared memory to run an Ajax Spider correctly ({shm} bytes). Make sure that /dev/shm/ is at least 1GB in size [ideally at least 2GB]"
      [AInt n].

Definition is_shm_warning (e : Event) : bool :=
  match e with
  | Log WARNING msg _ =>
      String.eqb msg
        "Insufficient shared memory to run an Ajax Spider correctly ({shm} bytes). Make sure that /dev/shm/ is at least 1GB in size [ideally at least 2GB]"
  | _ => false
  end.

(** The one line [check_pid_limit] logs, by what pids.max holds. *)
Definition pid_limit_log (h : Host) : Event :=
  match pids_max h with
  | None => Log DEBUG "No cgroupv2 pids.max: assume root cgroup" []
  | Some pid_val =>
      if String.eqb pid_val "max" then
        Log DEBUG "cgroup v2 has a sufficient pid limit: {pid_val}" [AStr pid_val]
      else
        match int pid_val with
        | None => Log WARNING "Unable to parse cgroupv2 pids.max: {e}" [AStr pid_val]
        | Some n =>
            if n >? 10000 then
              Log DEBUG "cgroup v2 has a sufficient pid limit: {pid_val}"
                  [AStr pid_val]
            else
              Log WARNING
                  "Number of threads may be too low for SpiderAjax: cgroupv2 pids.max={pid_val}"
                  [AStr pid_val]
        end
  end.

(** What [_setup_ajax_spider] does before it hands over to the parent,
    when the flag is set. *)
Definition own_checks (h : Host) : list Event :=
  PlatformSystem ::
  (if String.eqb (system h) "Linux" then
     DiskUsage "/dev/shm/" ::
     match shm_total h with
     | Some n =>
         Log DEBUG "Shared mem size: {shm} bytes" [AInt n]
           :: (if n <=? GiB then [shm_warning n] else [])
     | None =>
         [Log WARNING "/dev/shm not present. Unable to calcuate shared memory size" []]
     end ++ [OpenRead "/sys/fs/cgroup/pids.max"; pid_limit_log h]
   else [])%list.

End Vocabulary.

(** ** The command line of the scan *)

Definition with_zap_cli (cli : list pyval) (sc : Scanner) : Scanner :=
  mkScanner (state sc) (ident sc) (config sc) cli (host_home_dir sc)
            (container_home_dir sc) (host_policies_dir sc)
            (container_policies_dir sc).

(** [self.zap_cli = cli] *)
Definition set_zap_cli (cli : list pyval) : M unit :=
  fun s => mkOutcome (mkStore (with_zap_cli cli (self s)) (host s)) [] (Ok tt).

Section CommandLine.

Context {parent : Zap}.

(** [super()._setup_zap_cli()]: the generic part of the command line, built
    by the parent on top of what [self.zap_cli] already holds. *)
Variable Zap__setup_zap_cli : M unit.

(** [ZapNone._setup_zap_cli] *)
Definition _setup_zap_cli : M unit :=
  sc <- get_self ;;
  set_zap_cli [my_conf sc "container.parameters.executable" PNone;
               PStr "-dir";
               PStr (container_home_dir sc)] ;;
  Zap__setup_zap_cli ;;
  sc <- get_self ;;
  log DEBUG "ZAP will run with: {self.zap_cli}" [ACmd (zap_cli sc)].

End CommandLine.

(** The first three tokens [_setup_zap_cli] puts on the command line. *)
Definition base_cli (sc : Scanner) : list pyval :=
  [my_conf sc "container.parameters.executable" PNone;
   PStr "-dir";
   PStr (container_home_dir sc)].

Section MoreVocabulary.

Context {parent : Zap} {outside : Outside}.

(** The trace of the recovery branch, whatever the downloads and the
    install-all run do. *)
Definition recovery_tail (sc : Scanner) (h1 : Host) : list Event :=
  let proxy := my_conf sc "proxy" PNone in
  let d1 := fetch callhome_url (callhome_dest sc) proxy h1 in
  Download callhome_url (callhome_dest sc) proxy ::
  match snd d1 with
  | Raised _ => []
  | Ok _ =>
      Download network_url (network_dest sc) proxy ::
      match snd (fetch network_url (network_dest sc) proxy (fst d1)) with
      | Raised _ => []
      | Ok _ =>
          [Log INFO "Workaround: installing all addons" [];
           Log DEBUG "ZAP: installing all addons: {command}"
               [ACmd (install_all_command sc)];
           Exec (install_all_command sc) false]
      end
  end.

(** The command [_handle_plugins] hands to [subprocess.run]. *)
Definition update_shell (sc : Scanner) : list pyval :=
  [PStr "sh"; PStr "-c";
   PStr (_zap_cli_list_to_str_for_sh
           (get_update_command sc
              ++ [PStr "-dir"; PStr (container_home_dir sc)])%list)].

End MoreVocabulary.

(** ** A concrete scanner and host, for running the model *)

Module Demo.

(** [int] on an unsigned ASCII decimal literal; every other string is
    reported as a [ValueError]. *)
Definition digit_of (c : ascii) : option Z :=
  let n := Z.of_N (N_of_ascii c) in
  if (48 <=? n) && (n <=? 57) then Some (n - 48) else None.

Fixpoint digits (s : string) (acc : Z) : option Z :=
  match s with
  | EmptyString => Some acc
  | String c rest =>
      match digit_of c with
      | Some d => digits rest (10 * acc + d)
      | None => None
      end
  end.

Definition int_decimal (s : string) : option Z :=
  match s with
  | EmptyString => None
  | _ => digits s 0
  end.

Definition str_of (v : pyval) : string :=
  match v with
  | PStr s => s
  | PNone => "None"
  | PBool true => "True"
  | PBool false => "False"
  | _ => "?"
  end.

Fixpoint join_tokens (cmd : list pyval) : string :=
  match cmd with
  | [] => ""
  | [t] => str_of t
  | t :: rest => str_of t ++ " " ++ join_tokens rest
  end.

(** A parent whose methods do nothing but return. *)
Definition quiet_parent (update_command : list pyval) : Zap :=
  {| MODULE_DIR := "/opt/rapidast/scanners/zap";
     _get_standard_options := fun _ => [PStr "-config"; PStr "api.disablekey=true"];
     get_update_command := fun _ => update_command;
     _zap_cli_list_to_str_for_sh := join_tokens;
     _include_file := fun _ _ => ret tt;
     _create_temp_dir := fun name => ret ("/tmp/rapidast_zap_" ++ name);
     Zap_setup := ret tt;
     Zap_postprocess := ret tt;
     Zap_cleanup := ret tt;
     Zap__setup_ajax_spider := ret tt |}.

(** A host on which the viability check ends with [check], the
    addon-install-all run with code [install_rc], and every command given
    to [sh] with code [sh_rc]; each shell command leaves a fresh
    add-ons-state.xml behind. *)
Definition scripted (check : CompletedProcess) (install_rc sh_rc : Z) : Outside :=
  {| spawn := fun cmd h =>
       if existsb (tok_is "-addoninstallall") cmd then
         (h, Ok (mkProc install_rc "" ""))
       else if existsb (tok_is "sh") cmd then
         (with_files ({["/tmp/zaphome/add-ons-state.xml"]} ∪ files h) h,
          Ok (mkProc sh_rc "" ""))
       else (h, Ok check);
     fetch := fun _ dest _ h => (with_files ({[dest]} ∪ files h) h, Ok tt);
     int := int_decimal;
     str := str_of |}.

Definition conf (entries : list (string * pyval)) : pyval :=
  PDict [("scanners",
          PDict [("zap",
                  PDict (("container",
                          PDict [("parameters",
                                  PDict [("executable", PStr "zap.sh")])])
                           :: entries))])].

Definition scanner (st : State) (entries : list (string * pyval)) : Scanner :=
  {| state := st;
     ident := "zap";
     config := conf entries;
     zap_cli := [PStr "zap.sh"; PStr "-dir"; PStr "/tmp/zaphome"; PStr "-cmd";
                 PStr "-autorun"; PStr "/tmp/work/af.yaml"];
     host_home_dir := "/tmp/zaphome";
     container_home_dir := "/tmp/zaphome";
     host_policies_dir := "/tmp/zaphome/policies";
     container_policies_dir := "/tmp/zaphome/policies" |}.

Definition machine (sys : string) (shm : option Z) (pids : option string) : Host :=
  {| files := {["/tmp/zaphome/add-ons-state.xml"]};
     writable := {["/root"]};
     environ := {["HOME" := "/root"]};
     system := sys;
     shm_total := shm;
     pids_max := pids |}.

Definition linux : Host := machine "Linux" (Some (64 * 1024 * 1024)) (Some "max").

End Demo.

(** ** Concrete runs *)

Module Runs.
Import Demo.

(** A verification run that fails with the marker as the first bytes of
    stderr, and one where a log prefix precedes it. *)
Definition marker_first : CompletedProcess :=
  mkProc 1 "" "The mandatory add-on was not found: callhome".

Definition marker_later : CompletedProcess :=
  mkProc 1 "" "ERROR The mandatory add-on was not found: callhome".

Definition healthy : CompletedProcess := mkProc 0 "" "".

Definition ready : Store := mkStore (scanner READY []) linux.

Definition fresh : Store := mkStore (scanner UNCONFIGURED []) linux.

Definition ajax_entries : list (string * pyval) :=
  [("spiderAjax", PDict [("url", PStr "https://abcdef.jklm")])].

(** A container-like host: /dev/shm of exactly 1 GiB, pids.max of 100. *)
Definition cramped : Store :=
  mkStore (scanner READY ajax_entries) (machine "Linux" (Some GiB) (Some "100")).

Definition update_command : list pyval := [PStr "zap.sh"; PStr "-addonupdate"].

End Runs.

(** ** Further hosts and parents *)

Module Cases.
Import Demo Runs.

(** A host like [scripted check 0 0] whose network is down: every download
    raises. *)
Definition offline (check : CompletedProcess) : Outside :=
  {| spawn := @spawn (scripted check 0 0);
     fetch := fun _ _ _ h => (h, Raised (OtherError "HTTPError"));
     int := int_decimal;
     str := str_of |}.

(** A host on which no command can be started. *)
Definition no_shell : Outside :=
  {| spawn := fun _ h => (h, Raised (FileNotFoundError "sh"));
     fetch := fun _ _ _ h => (h, Ok tt);
     int := int_decimal;
     str := str_of |}.

Definition processed : Store := mkStore (scanner PROCESSED []) linux.

Definition failed : Store := mkStore (scanner ERROR []) linux.

(** The same machine with HOME unset, and with a HOME that cannot be
    written to. *)
Definition homeless : Host :=
  mkHost (files linux) (writable linux) ∅ (system linux) (shm_total linux)
         (pids_max linux).

Definition readonly_home : Host :=
  mkHost (files linux) ∅ {["HOME" := "/"]} (system linux) (shm_total linux)
         (pids_max linux).

(** Active scanning configured without a policy name, on a home that
    already holds a policies directory. *)
Definition active_entries : list (string * pyval) := [("activeScan", PDict [])].

Definition stale_home : Host :=
  mkHost ({["/tmp/zaphome/policies"]} ∪ files linux) (writable linux)
         (environ linux) (system linux) (shm_total linux) (pids_max linux).

(** The spiderAjax entry present, holding None. *)
Definition none_entries : list (string * pyval) := [("spiderAjax", PNone)].

(** A parent [_setup_zap_cli] that appends the automation flags. *)
Definition appending : M unit :=
  fun s =>
    mkOutcome
      (mkStore (with_zap_cli (zap_cli (self s)
                                ++ [PStr "-cmd"; PStr "-autorun";
                                    PStr "/tmp/work/af.yaml"])%list
                             (self s))
               (host s))
      [] (Ok tt).

End Cases.

(** * Properties *)

(** ** [bytes.find] *)

Lemma startswith_app (sub s : string) :
  startswith sub s = true <-> exists post, s = (sub ++ post)%string.
Proof.
  revert s. induction sub as [|a sub IH]; intros s; simpl.
  - split; [intros _; exists s; reflexivity | reflexivity].
  - destruct s as [|b s].
    + split; [discriminate | intros [post H]; discriminate].
    + rewrite andb_true_iff, Ascii.eqb_eq, IH. split.
      * intros [-> [post ->]]. exists post. reflexivity.
      * intros [post H]. injection H as -> ->. split; [reflexivity | eauto].
Qed.

Lemma find_from_range (sub s : string) (i : Z) :
  find_from sub s i = -1 \/ i <= find_from sub s i.
Proof.
  revert i. induction s as [|c s IH]; intros i; simpl.
  - destruct (startswith sub ""); [right; lia | left; reflexivity].
  - destruct (startswith sub (String c s)); [right; lia |].
    destruct (IH (i + 1)) as [H | H]; [left; exact H | right; lia].
Qed.

Lemma find_from_found (sub s : string) (i : Z) :
  find_from sub s i <> -1 ->
  exists pre post, s = (pre ++ sub ++ post)%string.
Proof.
  revert i. induction s as [|c s IH]; intros i; simpl.
  - destruct (startswith sub "") eqn:E; [intros _ | congruence].
    apply startswith_app in E as [post E]. exists "", post. exact E.
  - destruct (startswith sub (String c s)) eqn:E.
    + intros _. apply startswith_app in E as [post E]. exists "", post. exact E.
    + intros H. destruct (IH (i + 1) H) as (pre & post & ->).
      exists (String c pre), post. reflexivity.
Qed.

Lemma find_from_occurs (sub pre post : string) (i : Z) :
  0 <= i -> find_from sub (pre ++ sub ++ post) i <> -1.
Proof.
  revert i. induction pre as [|c pre IH]; intros i Hi.
  - assert (E : startswith sub ("" ++ sub ++ post) = true)
      by (apply startswith_app; exists post; reflexivity).
    destruct (("" ++ sub ++ post)%string) as [|c s] eqn:Es;
      simpl; rewrite E; lia.
  - simpl. destruct (startswith sub (String c (pre ++ sub ++ post))); [lia |].
    apply IH. lia.
Qed.

(** [find] is positive exactly when the needle occurs in the haystack and
    the haystack does not begin with it. *)
Lemma find_pos_iff (s sub : string) :
  find s sub > 0 <->
  startswith sub s = false /\ exists pre post, s = (pre ++ sub ++ post)%string.
Proof.
  unfold find. split.
  - intros H. split.
    + destruct s; simpl in H; destruct (startswith sub _); try reflexivity; lia.
    + apply (find_from_found sub s 0). lia.
  - intros [Hs (pre & post & ->)].
    pose proof (find_from_occurs sub pre post 0 ltac:(lia)) as Hne.
    destruct ((pre ++ sub ++ post)%string) as [|c s] eqn:Es; simpl in *;
      rewrite Hs in *.
    + congruence.
    + destruct (find_from_range sub s (0 + 1)) as [H | H]; [congruence | lia].
Qed.

Lemma find_startswith (s sub : string) :
  startswith sub s = true -> find s sub = 0.
Proof. unfold find. intros H. destruct s; simpl; rewrite H; reflexivity. Qed.

(** ** The effect monad *)

Lemma outcome_eta {A} (o : Outcome A) :
  o = mkOutcome (final o) (events o) (result o).
Proof. destruct o; reflexivity. Qed.

Lemma after_mk {A} (ev ev' : list Event) (s : Store) (r : Res A) :
  after ev (mkOutcome s ev' r) = mkOutcome s (ev ++ ev') r.
Proof. reflexivity. Qed.

Lemma after_nil {A} (o : Outcome A) : after [] o = o.
Proof. destruct o; reflexivity. Qed.

Lemma after_after {A} (ev ev' : list Event) (o : Outcome A) :
  after ev (after ev' o) = after (ev ++ ev') o.
Proof. unfold after; simpl. rewrite app_assoc. reflexivity. Qed.

(** One step of a [bind] whose first computation is known. *)
Lemma bind_Ok {A B} (m : M A) (k : A -> M B) (s s' : Store) ev (a : A) :
  m s = mkOutcome s' ev (Ok a) ->
  bind m k s = after ev (k a s').
Proof. intros H. unfold bind. rewrite H. reflexivity. Qed.

Lemma bind_Raised {A B} (m : M A) (k : A -> M B) (s s' : Store) ev e :
  m s = mkOutcome s' ev (Raised e) ->
  bind m k s = mkOutcome s' ev (Raised e).
Proof. intros H. unfold bind. rewrite H. reflexivity. Qed.

Lemma bind_result_Ok {A B} (m : M A) (k : A -> M B) (s : Store) (a : A) :
  result (m s) = Ok a ->
  bind m k s = after (events (m s)) (k a (final (m s))).
Proof. intros H. unfold bind. rewrite H. reflexivity. Qed.

Lemma bind_log {B} lvl msg args (k : unit -> M B) (s : Store) :
  bind (log lvl msg args) k s = after [Log lvl msg args] (k tt s).
Proof. reflexivity. Qed.

Lemma bind_emit {B} e (k : unit -> M B) (s : Store) :
  bind (emit e) k s = after [e] (k tt s).
Proof. reflexivity. Qed.

Lemma bind_get_self {B} (k : Scanner -> M B) (s : Store) :
  bind get_self k s = k (self s) s.
Proof. unfold bind, get_self; simpl. apply after_nil. Qed.

Lemma bind_get_host {B} (k : Host -> M B) (s : Store) :
  bind get_host k s = k (host s) s.
Proof. unfold bind, get_host; simpl. apply after_nil. Qed.

Lemma bind_ret {A B} (a : A) (k : A -> M B) (s : Store) :
  bind (ret a) k s = k a s.
Proof. unfold bind, ret; simpl. apply after_nil. Qed.

Lemma bind_raise {A B} e (k : A -> M B) (s : Store) :
  bind (raise e) k s = mkOutcome s [] (Raised e).
Proof. reflexivity. Qed.

Lemma bind_put_host {B} h (k : unit -> M B) (s : Store) :
  bind (put_host h) k s = k tt (mkStore (self s) h).
Proof. unfold bind, put_host; simpl. apply after_nil. Qed.

Lemma bind_set_state {B} st (k : unit -> M B) (s : Store) :
  bind (set_state st) k s = k tt (mkStore (with_state st (self s)) (host s)).
Proof. unfold bind, set_state; simpl. apply after_nil. Qed.

Lemma bind_assoc {A B C} (m : M A) (k : A -> M B) (k' : B -> M C) (s : Store) :
  bind (bind m k) k' s = bind m (fun a => bind (k a) k') s.
Proof.
  unfold bind. destruct (m s) as [s1 e1 [a | e]]; simpl; [| reflexivity].
  destruct (k a s1) as [s2 e2 [b | e]]; simpl; [| reflexivity].
  unfold after; simpl. rewrite app_assoc. reflexivity.
Qed.

Lemma bind_congr {A B} (m : M A) (k k' : A -> M B) (s : Store) :
  (forall a s', k a s' = k' a s') -> bind m k s = bind m k' s.
Proof.
  intros H. unfold bind. destruct (m s) as [s1 e1 [a | e]]; simpl;
    [rewrite H |]; reflexivity.
Qed.

(** Run the leading steps of a computation that are fixed by the program
    text alone. *)
Ltac step :=
  first [ rewrite bind_log | rewrite bind_emit | rewrite bind_get_self
        | rewrite bind_get_host | rewrite bind_ret | rewrite bind_put_host
        | rewrite bind_set_state | rewrite bind_raise | rewrite bind_assoc ];
  cbn beta zeta.

Ltac steps := repeat step.

Lemma keeps_ret {A} (a : A) : keeps_self (ret a).
Proof. intros s. reflexivity. Qed.

Lemma keeps_raise {A} e : keeps_self (@raise A e).
Proof. intros s. reflexivity. Qed.

Lemma keeps_emit e : keeps_self (emit e).
Proof. intros s. reflexivity. Qed.

Lemma keeps_log lvl msg args : keeps_self (log lvl msg args).
Proof. intros s. reflexivity. Qed.

Lemma keeps_get_self : keeps_self get_self.
Proof. intros s. reflexivity. Qed.

Lemma keeps_get_host : keeps_self get_host.
Proof. intros s. reflexivity. Qed.

Lemma keeps_put_host h : keeps_self (put_host h).
Proof. intros s. reflexivity. Qed.

Lemma keeps_bind {A B} (m : M A) (k : A -> M B) :
  keeps_self m -> (forall a, keeps_self (k a)) -> keeps_self (bind m k).
Proof.
  intros Hm Hk s. unfold bind. specialize (Hm s).
  destruct (m s) as [s' ev [a | e]]; simpl in *; [| exact Hm].
  rewrite Hk. exact Hm.
Qed.

Lemma keeps_try_except {A} (m : M A) clauses :
  keeps_self m ->
  (forall e h, clauses e = Some h -> keeps_self h) ->
  keeps_self (try_except m clauses).
Proof.
  intros Hm Hc s. unfold try_except. specialize (Hm s).
  destruct (m s) as [s' ev [a | e]]; simpl in *; [exact Hm |].
  destruct (clauses e) as [h |] eqn:E; simpl; [| exact Hm].
  rewrite (Hc e h E). exact Hm.
Qed.

Create HintDb keeps discriminated.
#[global] Hint Resolve keeps_ret keeps_raise keeps_emit keeps_log keeps_get_self
  keeps_get_host keeps_put_host : keeps.

Section Properties.

Context {parent : Zap} {outside : Outside}.

(** ** Operating-system primitives *)

Lemma subprocess_run_spec (cmd : list pyval) (c : bool) (s : Store) :
  subprocess_run cmd c s =
  mkOutcome (mkStore (self s) (fst (spawn cmd (host s)))) [Exec cmd c]
            (snd (spawn cmd (host s))).
Proof.
  unfold subprocess_run. steps.
  destruct (spawn cmd (host s)) as [h' [p | e]]; steps; reflexivity.
Qed.

Lemma anonymous_download_spec (url dest : string) (proxy : pyval) (s : Store) :
  anonymous_download url dest proxy s =
  mkOutcome (mkStore (self s) (fst (fetch url dest proxy (host s))))
            [Download url dest proxy]
            (snd (fetch url dest proxy (host s))).
Proof.
  unfold anonymous_download. steps.
  destruct (fetch url dest proxy (host s)) as [h' [[] | e]]; steps; reflexivity.
Qed.

Lemma os_remove_present (path : string) (s : Store) :
  path ∈ files (host s) ->
  os_remove path s =
  mkOutcome (mkStore (self s) (with_files (files (host s) ∖ {[path]}) (host s)))
            [Remove path] (Ok tt).
Proof.
  intros H. unfold os_remove. steps.
  rewrite bool_decide_eq_true_2 by exact H. reflexivity.
Qed.

Lemma os_remove_absent (path : string) (s : Store) :
  path ∉ files (host s) ->
  os_remove path s = mkOutcome s [Remove path] (Raised (FileNotFoundError path)).
Proof.
  intros H. unfold os_remove. steps.
  rewrite bool_decide_eq_false_2 by exact H. reflexivity.
Qed.

Lemma keeps_subprocess_run cmd c : keeps_self (subprocess_run cmd c).
Proof. intros s. rewrite subprocess_run_spec. reflexivity. Qed.

Lemma keeps_anonymous_download url dest proxy :
  keeps_self (anonymous_download url dest proxy).
Proof. intros s. rewrite anonymous_download_spec. reflexivity. Qed.

Lemma keeps_os_remove path : keeps_self (os_remove path).
Proof.
  intros s. destruct (decide (path ∈ files (host s))) as [H | H].
  - rewrite os_remove_present by exact H. reflexivity.
  - rewrite os_remove_absent by exact H. reflexivity.
Qed.

Hint Resolve keeps_subprocess_run keeps_anonymous_download keeps_os_remove : keeps.

Ltac keeps :=
  repeat first
    [ progress auto with keeps
    | apply keeps_bind; [| intros ?]
    | apply keeps_try_except; [| intros ? ? ?]
    | match goal with
      | |- keeps_self (if ?b then _ else _) => destruct b
      | |- keeps_self (match ?x with _ => _ end) => destruct x
      | H : match ?e with _ => _ end = Some _ |- _ =>
          destruct e; try discriminate H; injection H as <-
      end ].

(** The viability check, the state-file removal and the addon pass work on
    the host only: the scanner object, its state included, is the same
    afterwards. *)
Lemma keeps_check_plugin_status : keeps_self _check_plugin_status.
Proof. unfold _check_plugin_status. keeps. Qed.

Lemma keeps_handle_plugins : keeps_self _handle_plugins.
Proof. unfold _handle_plugins. keeps. Qed.

Lemma keeps_remove_statefile : keeps_self remove_statefile.
Proof. unfold remove_statefile. keeps. Qed.

Lemma subprocess_run_returns (cmd : list pyval) (c : bool) (s : Store)
      (h : Host) (r : Res CompletedProcess) :
  spawn cmd (host s) = (h, r) ->
  subprocess_run cmd c s = mkOutcome (mkStore (self s) h) [Exec cmd c] r.
Proof. intros H. rewrite subprocess_run_spec, H. reflexivity. Qed.

Lemma anonymous_download_returns (url dest : string) (proxy : pyval)
      (s : Store) (h : Host) (r : Res unit) :
  fetch url dest proxy (host s) = (h, r) ->
  anonymous_download url dest proxy s =
  mkOutcome (mkStore (self s) h) [Download url dest proxy] r.
Proof. intros H. rewrite anonymous_download_spec, H. reflexivity. Qed.

(** Close a goal whose left side is a chain of [after]s around a finished
    outcome. *)
Ltac finish := rewrite ?after_mk; reflexivity.

(** ** Plugin viability check *)

(** The remediation URLs are the two fixed release assets. *)
Lemma remediation_urls :
  callhome_url =
  "https://github.com/zaproxy/zap-extensions/releases/download/callhome-v0.6.0/callhome-release-0.6.0.zap"
  /\ network_url =
  "https://github.com/zaproxy/zap-extensions/releases/download/network-v0.9.0/network-beta-0.9.0.zap".
Proof. split; vm_compute; reflexivity. Qed.

Lemma install_all_command_has_flag (sc : Scanner) :
  existsb (tok_is "-addoninstallall") (install_all_command sc) = true.
Proof.
  unfold install_all_command. rewrite !existsb_app.
  replace (existsb (tok_is "-addoninstallall") [PStr "-addoninstallall"])
    with true by (vm_compute; reflexivity).
  rewrite !orb_true_r. reflexivity.
Qed.

(** A clean exit of the verification run: nothing is downloaded and no
    second command is issued. *)
Lemma check_plugin_status_clean_exit (s : Store) (h1 : Host) (p : CompletedProcess) :
  spawn (viability_command (self s)) (host s) = (h1, Ok p) ->
  returncode p = 0 ->
  _check_plugin_status s =
  mkOutcome (mkStore (self s) h1)
    [Log INFO "Zap: verifying the viability of ZAP" [];
     Log DEBUG "ZAP create home command: {command}"
         [ACmd (viability_command (self s))];
     Exec (viability_command (self s)) true;
     Log DEBUG "ZAP appears to be in a correct state" []]
    (Ok tt).
Proof.
  intros Hrun Hrc. unfold _check_plugin_status. steps.
  rewrite (bind_Ok _ _ _ _ _ _ (subprocess_run_returns _ true _ _ _ Hrun)).
  cbn beta. rewrite Hrc. cbn [Z.eqb]. unfold log, emit. finish.
Qed.

(** The recovery path: the verification run fails and [find] reports the
    marker at a positive offset.  Two downloads, then one run with
    [-addoninstallall]; whatever that run returns is dropped. *)
Lemma check_plugin_status_recovery (s : Store) (h1 h2 h3 h4 : Host)
      (p : CompletedProcess) (r : Res CompletedProcess) :
  let sc := self s in
  spawn (viability_command sc) (host s) = (h1, Ok p) ->
  returncode p <> 0 ->
  find (stderr p) MARKER > 0 ->
  fetch callhome_url (callhome_dest sc) (my_conf sc "proxy" PNone) h1
    = (h2, Ok tt) ->
  fetch network_url (network_dest sc) (my_conf sc "proxy" PNone) h2
    = (h3, Ok tt) ->
  spawn (install_all_command sc) h3 = (h4, r) ->
  _check_plugin_status s =
  mkOutcome (mkStore sc h4)
    [Log INFO "Zap: verifying the viability of ZAP" [];
     Log DEBUG "ZAP create home command: {command}" [ACmd (viability_command sc)];
     Exec (viability_command sc) true;
     Log INFO "Missing mandatory plugins. Fixing" [];
     Download callhome_url (callhome_dest sc) (my_conf sc "proxy" PNone);
     Download network_url (network_dest sc) (my_conf sc "proxy" PNone);
     Log INFO "Workaround: installing all addons" [];
     Log DEBUG "ZAP: installing all addons: {command}"
         [ACmd (install_all_command sc)];
     Exec (install_all_command sc) false]
    match r with Ok _ => Ok tt | Raised e => Raised e end.
Proof.
  intros sc Hrun Hrc Hfind Hf1 Hf2 Hinst. subst sc.
  unfold _check_plugin_status. steps.
  rewrite (bind_Ok _ _ _ _ _ _ (subprocess_run_returns _ true _ _ _ Hrun)).
  cbn beta.
  destruct (Z.eqb_spec (returncode p) 0) as [E | _]; [contradiction |].
  destruct (Z.gtb_spec (find (stderr p) MARKER) 0) as [_ | E]; [| lia].
  steps. cbn [self host].
  rewrite (bind_Ok _ _ _ _ _ _
             (anonymous_download_returns _ _ _ (mkStore (self s) h1) _ _ Hf1)).
  steps. cbn [self host].
  rewrite (bind_Ok _ _ _ _ _ _
             (anonymous_download_returns _ _ _ (mkStore (self s) h2) _ _ Hf2)).
  steps. cbn [self host].
  pose proof (subprocess_run_returns _ false (mkStore (self s) h3) _ _ Hinst)
    as Hsub.
  destruct r as [p2 | e].
  - rewrite (bind_Ok _ _ _ _ _ _ Hsub). unfold ret. finish.
  - rewrite (bind_Raised _ _ _ _ _ _ Hsub). finish.
Qed.

(** C1: a verification run that fails with the marker at the very start
    of stderr is not recognised: [find] returns 0 there, the test [> 0]
    fails, and the call ends in the warning branch with no download and no
    second command. *)
Theorem check_plugin_status_marker_at_start
        (s : Store) (h1 : Host) (p : CompletedProcess) :
  spawn (viability_command (self s)) (host s) = (h1, Ok p) ->
  returncode p <> 0 ->
  startswith MARKER (stderr p) = true ->
  _check_plugin_status s =
  mkOutcome (mkStore (self s) h1)
    [Log INFO "Zap: verifying the viability of ZAP" [];
     Log DEBUG "ZAP create home command: {command}"
         [ACmd (viability_command (self s))];
     Exec (viability_command (self s)) true;
     Log WARNING "ZAP appears to be in a incorrect state. Error: {result.stderr}"
         [ABytes (stderr p)]]
    (Ok tt)
  /\ filter is_download (events (_check_plugin_status s)) = [].
Proof.
  intros Hrun Hrc Hstart.
  assert (E : _check_plugin_status s =
    mkOutcome (mkStore (self s) h1)
      [Log INFO "Zap: verifying the viability of ZAP" [];
       Log DEBUG "ZAP create home command: {command}"
           [ACmd (viability_command (self s))];
       Exec (viability_command (self s)) true;
       Log WARNING "ZAP appears to be in a incorrect state. Error: {result.stderr}"
           [ABytes (stderr p)]]
      (Ok tt)).
  { unfold _check_plugin_status. steps.
    rewrite (bind_Ok _ _ _ _ _ _ (subprocess_run_returns _ true _ _ _ Hrun)).
    cbn beta.
    destruct (Z.eqb_spec (returncode p) 0) as [E | _]; [contradiction |].
    rewrite (find_startswith _ _ Hstart). cbn [Z.gtb Z.compare].
    unfold log, emit. finish. }
  split; [exact E | rewrite E; reflexivity].
Qed.

(** C7: in the recovery path a failing addon-install-all run leaves no
    trace: its exit code is never read, the last effect of the check is the
    command itself, no warning is logged, and the check returns normally
    after that single attempt. *)
Theorem check_plugin_status_recovery_failure_silent
        (s : Store) (h1 h2 h3 h4 : Host) (p p2 : CompletedProcess) :
  let sc := self s in
  spawn (viability_command sc) (host s) = (h1, Ok p) ->
  returncode p <> 0 ->
  find (stderr p) MARKER > 0 ->
  fetch callhome_url (callhome_dest sc) (my_conf sc "proxy" PNone) h1
    = (h2, Ok tt) ->
  fetch network_url (network_dest sc) (my_conf sc "proxy" PNone) h2
    = (h3, Ok tt) ->
  spawn (install_all_command sc) h3 = (h4, Ok p2) ->
  returncode p2 <> 0 ->
  let o := _check_plugin_status s in
  result o = Ok tt
  /\ last (events o) = Some (Exec (install_all_command sc) false)
  /\ filter is_warning (events o) = []
  /\ filter is_exec (events o) =
     [Exec (viability_command sc) true; Exec (install_all_command sc) false].
Proof.
  intros sc Hrun Hrc Hfind Hf1 Hf2 Hinst _ o. subst o.
  rewrite (check_plugin_status_recovery s h1 h2 h3 h4 p (Ok p2))
    by assumption.
  repeat split; reflexivity.
Qed.

(** ** The lifecycle phases *)

Lemma classify_DONE (rc : Z) : classify rc = DONE <-> rc = 0 \/ rc = 2.
Proof.
  unfold classify; simpl.
  destruct (Z.eqb_spec rc 0), (Z.eqb_spec rc 2); simpl;
    split; intros H; try reflexivity; try discriminate; try lia.
Qed.

Lemma classify_ERROR (rc : Z) : classify rc = ERROR <-> rc <> 0 /\ rc <> 2.
Proof.
  unfold classify; simpl.
  destruct (Z.eqb_spec rc 0), (Z.eqb_spec rc 2); simpl;
    split; intros H; try reflexivity; try discriminate; try lia.
Qed.

Lemma run_ready (s : Store) :
  state (self s) = READY ->
  run s =
  after [Log INFO "Running up the ZAP scanner on the host" []]
        ((run_prelude ;; real_run) s).
Proof.
  intros H. unfold run, run_prelude. steps.
  rewrite H. rewrite bool_decide_eq_true_2 by reflexivity. cbn [negb].
  f_equal. rewrite ?bind_assoc. apply bind_congr; intros _ sa.
  rewrite ?bind_assoc. apply bind_congr; intros _ sb.
  rewrite ?bind_assoc. reflexivity.
Qed.

Lemma real_run_spec (s : Store) (h1 : Host) (p : CompletedProcess) :
  spawn (main_command (self s)) (host s) = (h1, Ok p) ->
  final (real_run s) = mkStore (with_state (classify (returncode p)) (self s)) h1
  /\ result (real_run s) = Ok tt
  /\ filter is_exec (events (real_run s)) = [Exec (main_command (self s)) false].
Proof.
  intros Hrun. unfold real_run. steps.
  rewrite (bind_Ok _ _ _ _ _ _ (subprocess_run_returns _ false _ _ _ Hrun)).
  steps. unfold classify.
  destruct (existsb (Z.eqb (returncode p)) [0; 2]); steps;
    unfold set_state; rewrite ?after_mk; repeat split.
Qed.

(** C2: once the main scan command has returned exit code [rc], [run]
    leaves the state DONE exactly when [rc] is 0 or 2 and ERROR for every
    other integer. *)
Theorem run_exit_code_classification
        (s s1 : Store) (ev : list Event) (h1 : Host) (p : CompletedProcess) :
  state (self s) = READY ->
  run_prelude s = mkOutcome s1 ev (Ok tt) ->
  spawn (main_command (self s1)) (host s1) = (h1, Ok p) ->
  result (run s) = Ok tt
  /\ (state (self (final (run s))) = DONE <->
      returncode p = 0 \/ returncode p = 2)
  /\ (state (self (final (run s))) = ERROR <->
      returncode p <> 0 /\ returncode p <> 2).
Proof.
  intros Hready Hpre Hmain.
  destruct (real_run_spec s1 h1 p Hmain) as (Hfin & Hres & _).
  rewrite (run_ready s Hready), (bind_Ok _ _ _ _ _ _ Hpre).
  cbn [after final result]. rewrite Hfin, Hres. cbn [self with_state state].
  split; [reflexivity |].
  split; [apply classify_DONE | apply classify_ERROR].
Qed.

(** C3: outside the READY state [run] raises right after its opening log
    line: the store is untouched, no command is executed, nothing is
    downloaded and no file is removed. *)
Theorem run_not_ready (s : Store) :
  state (self s) <> READY ->
  run s =
  mkOutcome s [Log INFO "Running up the ZAP scanner on the host" []]
            (Raised (RuntimeError "[ZAP SCANNER]: ERROR, not ready to run" []))
  /\ filter is_exec (events (run s)) = []
  /\ filter is_download (events (run s)) = [].
Proof.
  intros H.
  assert (E : run s =
    mkOutcome s [Log INFO "Running up the ZAP scanner on the host" []]
              (Raised (RuntimeError "[ZAP SCANNER]: ERROR, not ready to run" []))).
  { unfold run. steps.
    rewrite bool_decide_eq_false_2 by exact H. cbn [negb]. unfold raise. finish. }
  rewrite E. repeat split.
Qed.

(** C4: outside the PROCESSED state [cleanup] raises right after its
    opening log line, before the parent's cleanup is reached, and the store
    (the state with it) is what it was. *)
Theorem cleanup_not_processed (s : Store) :
  state (self s) <> PROCESSED ->
  cleanup s =
  mkOutcome s [Log INFO "Running cleanup for the ZAP Host environment" []]
    (Raised (RuntimeError "No cleanning up as ZAP did not processed results." [])).
Proof.
  intros H. unfold cleanup. steps.
  rewrite bool_decide_eq_false_2 by exact H. cbn [negb]. unfold raise. finish.
Qed.

(** [_create_home_if_needed] changes the scanner only through
    [_create_temp_dir]. *)
Lemma create_home_keeps_state (s : Store) :
  (forall name s', state (self (final (_create_temp_dir name s'))) = state (self s')) ->
  state (self (final (_create_home_if_needed s))) = state (self s).
Proof.
  intros Htmp. unfold _create_home_if_needed. steps.
  destruct (environ (host s) !! "HOME") as [home |]; [| reflexivity].
  unfold os_access_W_OK. steps.
  destruct (bool_decide (home ∈ writable (host s))); [reflexivity |].
  specialize (Htmp "home" s). unfold bind at 1.
  destruct (_create_temp_dir "home" s) as [s1 e1 [d | e]];
    cbn [result final events] in *; [| exact Htmp].
  steps. exact Htmp.
Qed.

(** The part of [setup] that follows the guard. *)
Lemma setup_unconfigured (s : Store) :
  state (self s) = UNCONFIGURED ->
  setup s =
  ((Zap_setup ;; copy_policy) ;;
   sc <- get_self ;;
   (if negb (bool_decide (state sc = ERROR)) then set_state READY else ret tt) ;;
   _create_home_if_needed) s.
Proof.
  intros H. unfold setup. steps. rewrite H.
  rewrite bool_decide_eq_true_2 by reflexivity. cbn [negb].
  rewrite ?bind_assoc. reflexivity.
Qed.

(** C5: [setup] raises on every state but UNCONFIGURED, leaving the store
    alone.  From UNCONFIGURED, once the parent's setup and the policy copy
    have returned, the state is READY, unless they left ERROR, which then
    stays; an exception of theirs passes through unchanged. *)
Theorem setup_sequencing (s : Store) :
  (state (self s) <> UNCONFIGURED ->
   setup s =
   mkOutcome s []
     (Raised (RuntimeError "ZAP setup encounter an unexpected state: {self.state}"
                           [AState (state (self s))])))
  /\ (state (self s) = UNCONFIGURED ->
      (forall name s',
          state (self (final (_create_temp_dir name s'))) = state (self s')) ->
      forall s1 ev,
        (Zap_setup ;; copy_policy) s = mkOutcome s1 ev (Ok tt) ->
        state (self (final (setup s))) =
        if decide (state (self s1) = ERROR) then ERROR else READY)
  /\ (state (self s) = UNCONFIGURED ->
      forall s1 ev e,
        (Zap_setup ;; copy_policy) s = mkOutcome s1 ev (Raised e) ->
        setup s = mkOutcome s1 ev (Raised e)).
Proof.
  split; [| split].
  - intros H. unfold setup. steps.
    rewrite bool_decide_eq_false_2 by exact H. reflexivity.
  - intros H Htmp s1 ev Hsub.
    rewrite (setup_unconfigured s H), (bind_Ok _ _ _ _ _ _ Hsub).
    steps. cbn [after final].
    destruct (decide (state (self s1) = ERROR)) as [E | E].
    + rewrite bool_decide_eq_true_2 by exact E. cbn [negb]. steps.
      rewrite create_home_keeps_state by exact Htmp. exact E.
    + rewrite bool_decide_eq_false_2 by exact E. cbn [negb]. steps.
      rewrite create_home_keeps_state by exact Htmp. reflexivity.
  - intros H s1 ev e Hsub.
    rewrite (setup_unconfigured s H). apply (bind_Raised _ _ _ _ _ _ Hsub).
Qed.

(** C10: [postprocess] has no guard.  In every state it logs, runs the
    parent's postprocess on the store as it stands, and returns exactly what
    that returns; after a normal return the state is PROCESSED exactly when
    the parent did not leave ERROR, which otherwise stays. *)
Theorem postprocess_unguarded (s : Store) :
  let o := Zap_postprocess s in
  events (postprocess s) =
    Log INFO "Running postprocess for the ZAP Host environment" [] :: events o
  /\ result (postprocess s) = result o
  /\ state (self (final (postprocess s))) =
     match result o with
     | Ok _ => if decide (state (self (final o)) = ERROR) then ERROR else PROCESSED
     | Raised _ => state (self (final o))
     end
  /\ (result o = Ok tt ->
      (state (self (final (postprocess s))) = PROCESSED <->
       state (self (final o)) <> ERROR)).
Proof.
  intros o. subst o. unfold postprocess. steps. unfold bind.
  destruct (Zap_postprocess s) as [s1 e1 [[] | e]]; cbn [result final events].
  - unfold get_self. cbn [result final events]. rewrite after_nil.
    destruct (decide (state (self s1) = ERROR)) as [E | E].
    + rewrite bool_decide_eq_true_2 by exact E. cbn [negb]. unfold ret.
      rewrite !after_mk. cbn [result final events app]. rewrite app_nil_r.
      repeat split; try exact E; try congruence.
    + rewrite bool_decide_eq_false_2 by exact E. cbn [negb]. unfold set_state.
      rewrite !after_mk. cbn [result final events app self with_state state].
      rewrite app_nil_r. repeat split; auto.
  - rewrite after_mk. cbn [result final events app].
    repeat split; discriminate.
Qed.

(** ** The stale addon-state file *)

Lemma remove_statefile_present (s : Store) :
  statefile (self s) ∈ files (host s) ->
  remove_statefile s =
  mkOutcome
    (mkStore (self s)
             (with_files (files (host s) ∖ {[statefile (self s)]}) (host s)))
    [Remove (statefile (self s))] (Ok tt).
Proof.
  intros H. unfold absent_trace, statefile in *.
  unfold remove_statefile. steps. unfold try_except.
  rewrite (os_remove_present _ _ H). reflexivity.
Qed.

Lemma remove_statefile_absent (s : Store) :
  statefile (self s) ∉ files (host s) ->
  remove_statefile s = mkOutcome s (absent_trace (self s)) (Ok tt).
Proof.
  intros H. unfold absent_trace, statefile in *.
  unfold remove_statefile. steps. unfold try_except.
  rewrite (os_remove_absent _ _ H). reflexivity.
Qed.

Lemma remove_statefile_total (s : Store) :
  result (remove_statefile s) = Ok tt
  /\ self (final (remove_statefile s)) = self s
  /\ (statefile (self s) ∉ files (host (final (remove_statefile s)))).
Proof.
  destruct (decide (statefile (self s) ∈ files (host s))) as [H | H].
  - rewrite remove_statefile_present by exact H. cbn [result final self host files with_files].
    split; [reflexivity |]. split; [reflexivity |].
    apply not_elem_of_difference. right. apply elem_of_singleton. reflexivity.
  - rewrite remove_statefile_absent by exact H. cbn [result final].
    split; [reflexivity |]. split; [reflexivity | exact H].
Qed.

(** C6: removing add-ons-state.xml never raises and always leaves the file
    absent; on a host where it is already absent the store is unchanged and
    the only trace is the attempt and one INFO line, so a second removal in
    a row is of that kind; and [run] performs the removal once before and
    once after the addon pass. *)
Theorem statefile_removal_idempotent (s : Store) :
  let once := remove_statefile s in
  result once = Ok tt
  /\ (statefile (self s) ∉ files (host (final once)))
  /\ (statefile (self s) ∉ files (host s) ->
      once = mkOutcome s (absent_trace (self s)) (Ok tt))
  /\ remove_statefile (final once) =
     mkOutcome (final once) (absent_trace (self s)) (Ok tt)
  /\ (state (self s) = READY ->
      forall s1 e1 s3 e3,
        _check_plugin_status s = mkOutcome s1 e1 (Ok tt) ->
        _handle_plugins (final (remove_statefile s1)) = mkOutcome s3 e3 (Ok tt) ->
        let first := remove_statefile s1 in
        let second := remove_statefile s3 in
        events (run s) =
          (Log INFO "Running up the ZAP scanner on the host" [] :: e1
             ++ events first ++ e3 ++ events second
             ++ events (real_run (final second)))%list
        /\ head (events first) = Some (Remove (statefile (self s)))
        /\ head (events second) = Some (Remove (statefile (self s)))
        /\ result first = Ok tt /\ result second = Ok tt).
Proof.
  intros once. subst once.
  destruct (remove_statefile_total s) as (Hres & Hself & Hgone).
  split; [exact Hres |]. split; [exact Hgone |].
  split; [apply remove_statefile_absent |].
  split.
  - rewrite <- Hself. apply remove_statefile_absent. rewrite Hself. exact Hgone.
  - intros Hready s1 e1 s3 e3 Hcheck Hplug first second.
    assert (Hs1 : self s1 = self s).
    { pose proof (keeps_check_plugin_status s) as K.
      rewrite Hcheck in K. exact K. }
    assert (Hs3 : self s3 = self s).
    { pose proof (keeps_handle_plugins (final (remove_statefile s1))) as K.
      rewrite Hplug in K. cbn [final] in K. rewrite K.
      rewrite keeps_remove_statefile. exact Hs1. }
    assert (Hhead : forall s', self s' = self s ->
              head (events (remove_statefile s')) = Some (Remove (statefile (self s)))).
    { intros s' E. rewrite <- E.
      destruct (decide (statefile (self s') ∈ files (host s'))) as [H | H].
      - rewrite remove_statefile_present by exact H. reflexivity.
      - rewrite remove_statefile_absent by exact H. reflexivity. }
    destruct (remove_statefile_total s1) as (Hr1 & _ & _).
    destruct (remove_statefile_total s3) as (Hr3 & _ & _).
    split; [| split; [apply Hhead, Hs1 |
                      split; [apply Hhead, Hs3 | split; assumption]]].
    rewrite (run_ready s Hready). unfold run_prelude. rewrite ?bind_assoc.
    rewrite (bind_Ok _ _ _ _ _ _ Hcheck). cbn beta. rewrite ?bind_assoc.
    rewrite (bind_result_Ok _ _ _ _ Hr1). cbn beta. rewrite ?bind_assoc.
    rewrite (bind_Ok _ _ _ _ _ _ Hplug). cbn beta. rewrite ?bind_assoc.
    rewrite (bind_result_Ok _ _ _ _ Hr3). cbn beta.
    unfold after. cbn [events]. reflexivity.
Qed.

(** ** The Ajax-spider resource check *)

Lemma check_pid_limit_spec (s : Store) :
  check_pid_limit s =
  mkOutcome s [OpenRead "/sys/fs/cgroup/pids.max"; pid_limit_log (host s)] (Ok tt).
Proof.
  unfold check_pid_limit, try_except, pid_limit_log, open_readline_rstrip.
  steps. destruct (pids_max (host s)) as [pid_val |]; steps; [| reflexivity].
  destruct (String.eqb pid_val "max"); steps.
  - reflexivity.
  - unfold py_int. destruct (int pid_val) as [n |]; steps; [| reflexivity].
    destruct (n >? 10000); reflexivity.
Qed.

Lemma pid_limit_log_not_shm (h : Host) : is_shm_warning (pid_limit_log h) = false.
Proof.
  unfold pid_limit_log. destruct (pids_max h) as [v |]; [| reflexivity].
  destruct (String.eqb v "max"); [reflexivity |].
  destruct (int v) as [n |]; [| reflexivity].
  destruct (n >? 10000); reflexivity.
Qed.

Lemma check_shared_memory_spec (s : Store) :
  check_shared_memory s =
  mkOutcome s
    (DiskUsage "/dev/shm/" ::
     match shm_total (host s) with
     | Some n =>
         Log DEBUG "Shared mem size: {shm} bytes" [AInt n]
           :: (if n <=? GiB then [shm_warning n] else [])
     | None =>
         [Log WARNING "/dev/shm not present. Unable to calcuate shared memory size" []]
     end)
    (Ok tt).
Proof.
  unfold check_shared_memory, try_except, disk_usage_total, shm_warning.
  steps. destruct (shm_total (host s)) as [n |]; steps; [| reflexivity].
  destruct (n <=? GiB); reflexivity.
Qed.

(** The flag test of [_setup_ajax_spider] succeeds on an absent key. *)
Lemma my_conf_unset (sc : Scanner) (path : string) (default : pyval) :
  walk (split_dots ("scanners." ++ ident sc ++ "." ++ path)) (config sc) = None ->
  my_conf sc path default = default.
Proof. intros H. unfold my_conf, config_get. rewrite H. reflexivity. Qed.

(** C8: with no spiderAjax entry in the scanner's configuration,
    [_setup_ajax_spider] returns at once on every host: the store is
    unchanged and nothing is logged, queried or delegated. *)
Theorem setup_ajax_spider_flag_unset (s : Store) :
  walk (split_dots ("scanners." ++ ident (self s) ++ ".spiderAjax"))
       (config (self s)) = None ->
  _setup_ajax_spider s = mkOutcome s [] (Ok tt).
Proof.
  intros H. unfold _setup_ajax_spider. steps.
  rewrite (my_conf_unset _ _ _ H). reflexivity.
Qed.

Lemma setup_ajax_spider_flag_set (s : Store) :
  is_False (my_conf (self s) "spiderAjax" (PBool false)) = false ->
  _setup_ajax_spider s = after (own_checks (host s)) (Zap__setup_ajax_spider s).
Proof.
  intros Hflag. unfold _setup_ajax_spider, own_checks. steps.
  rewrite Hflag. unfold platform_system. steps.
  destruct (String.eqb (system (host s)) "Linux"); steps.
  - rewrite (bind_Ok _ _ _ _ _ _ (check_shared_memory_spec s)).
    rewrite (bind_Ok _ _ _ _ _ _ (check_pid_limit_spec s)).
    rewrite !after_after. reflexivity.
  - reflexivity.
Qed.

(** C9, as amended: on Linux with the flag set and /dev/shm at or below
    1 GiB, the check logs the shared-memory warning exactly once; the pid
    limit check then adds its own single line, a second warning when
    pids.max is a number at or below 10000 or cannot be parsed.  The check
    itself leaves the store alone on every input: the store [ZapNone] hands
    back is the one the parent's [_setup_ajax_spider] produced from the
    original, or the original when the flag is off. *)
Theorem setup_ajax_spider_low_shm :
  (forall s : Store,
      final (_setup_ajax_spider s) = s
      \/ final (_setup_ajax_spider s) = final (Zap__setup_ajax_spider s))
  /\ (forall (s : Store) (n : Z),
        system (host s) = "Linux" ->
        is_False (my_conf (self s) "spiderAjax" (PBool false)) = false ->
        shm_total (host s) = Some n ->
        n <= GiB ->
        let own := [PlatformSystem; DiskUsage "/dev/shm/";
                    Log DEBUG "Shared mem size: {shm} bytes" [AInt n];
                    shm_warning n;
                    OpenRead "/sys/fs/cgroup/pids.max";
                    pid_limit_log (host s)] in
        events (_setup_ajax_spider s) =
          (own ++ events (Zap__setup_ajax_spider s))%list
        /\ filter is_shm_warning own = [shm_warning n]
        /\ (1 <= length (filter is_warning own) <= 2)%nat
        /\ final (_setup_ajax_spider s) = final (Zap__setup_ajax_spider s)
        /\ result (_setup_ajax_spider s) = result (Zap__setup_ajax_spider s)).
Proof.
  split.
  - intros s.
    destruct (is_False (my_conf (self s) "spiderAjax" (PBool false))) eqn:Hflag.
    + left. unfold _setup_ajax_spider. steps. rewrite Hflag. reflexivity.
    + right. rewrite (setup_ajax_spider_flag_set s Hflag). reflexivity.
  - intros s n Hsys Hflag Hshm Hle own.
    rewrite (setup_ajax_spider_flag_set s Hflag).
    assert (Hown : own_checks (host s) = own).
    { unfold own_checks. rewrite Hsys, Hshm.
      destruct (Z.leb_spec n GiB) as [_ | H]; [reflexivity | lia]. }
    rewrite Hown. cbn [after events final result].
    split; [reflexivity |].
    pose proof (pid_limit_log_not_shm (host s)) as Hnot.
    split; [| split; [| split; reflexivity]].
    + subst own. cbn. rewrite Hnot. reflexivity.
    + subst own. cbn. destruct (is_warning (pid_limit_log (host s))); simpl; lia.
Qed.

End Properties.

(** * The model at work on concrete runs *)

Import Demo Runs.

Lemma check_plugin_status_marker_at_start_witness :
  startswith MARKER (stderr marker_first) = true
  /\ filter is_download
       (events (@_check_plugin_status (quiet_parent []) (scripted marker_first 0 0)
                                      ready)) = [].
Proof.
  split; [reflexivity |].
  apply (@check_plugin_status_marker_at_start
           (quiet_parent []) (scripted marker_first 0 0) ready linux marker_first).
  - reflexivity.
  - discriminate.
  - reflexivity.
Defined.

Lemma check_plugin_status_recovery_failure_silent_witness :
  let o := @_check_plugin_status (quiet_parent []) (scripted marker_later 1 0) ready in
  result o = Ok tt
  /\ last (events o) =
     Some (Exec (@install_all_command (quiet_parent []) (self ready)) false)
  /\ filter is_warning (events o) = []
  /\ filter is_exec (events o) =
     [Exec (@viability_command (quiet_parent []) (self ready)) true;
      Exec (@install_all_command (quiet_parent []) (self ready)) false].
Proof.
  eapply (@check_plugin_status_recovery_failure_silent
            (quiet_parent []) (scripted marker_later 1 0) ready
            _ _ _ _ marker_later (mkProc 1 "" "")).
  - reflexivity.
  - discriminate.
  - vm_compute. reflexivity.
  - reflexivity.
  - reflexivity.
  - reflexivity.
  - discriminate.
Defined.

Lemma run_exit_code_classification_witness :
  state (self (final (@run (quiet_parent update_command)
                           (scripted healthy 0 2) ready))) = DONE.
Proof.
  pose (P := quiet_parent update_command).
  pose (O := scripted healthy 0 2).
  assert (H1 : state (self ready) = READY) by reflexivity.
  assert (H2 : @run_prelude P O ready =
               mkOutcome (final (@run_prelude P O ready))
                         (events (@run_prelude P O ready)) (Ok tt))
    by (vm_compute; reflexivity).
  assert (H3 : @spawn O (@main_command P (self (final (@run_prelude P O ready))))
                      (host (final (@run_prelude P O ready))) =
               (fst (@spawn O
                       (@main_command P (self (final (@run_prelude P O ready))))
                       (host (final (@run_prelude P O ready)))),
                Ok (mkProc 2 "" "")))
    by (vm_compute; reflexivity).
  destruct (@run_exit_code_classification P O ready _ _ _ _ H1 H2 H3)
    as (_ & Hdone & _).
  apply Hdone. right. reflexivity.
Defined.

Lemma run_not_ready_witness :
  filter is_exec
    (events (@run (quiet_parent update_command) (scripted healthy 0 0) fresh)) = []
  /\ final (@run (quiet_parent update_command) (scripted healthy 0 0) fresh) = fresh.
Proof.
  assert (H : state (self fresh) <> READY) by discriminate.
  destruct (@run_not_ready (quiet_parent update_command) (scripted healthy 0 0)
                           fresh H) as (E & Hexec & _).
  split; [exact Hexec | rewrite E; reflexivity].
Defined.

Lemma cleanup_not_processed_witness :
  @cleanup (quiet_parent []) (mkStore (scanner DONE []) linux) =
  mkOutcome (mkStore (scanner DONE []) linux)
    [Log INFO "Running cleanup for the ZAP Host environment" []]
    (Raised (RuntimeError "No cleanning up as ZAP did not processed results." [])).
Proof.
  apply (@cleanup_not_processed (quiet_parent [])).
  discriminate.
Defined.

Lemma setup_sequencing_witness :
  state (self (final (@setup (quiet_parent []) (scripted healthy 0 0) fresh))) = READY
  /\ result (@setup (quiet_parent []) (scripted healthy 0 0) ready) =
     Raised (RuntimeError "ZAP setup encounter an unexpected state: {self.state}"
                          [AState READY]).
Proof.
  set (P := quiet_parent []).
  set (O := scripted healthy 0 0).
  split.
  - destruct (@setup_sequencing P O fresh) as (_ & H & _).
    assert (H1 : state (self fresh) = UNCONFIGURED) by reflexivity.
    assert (H2 : forall name s',
               state (self (final (@_create_temp_dir P name s'))) = state (self s'))
      by (intros name s'; reflexivity).
    assert (H3 : bind (@Zap_setup P) (fun _ => @copy_policy P O) fresh =
                 mkOutcome fresh [] (Ok tt)) by (vm_compute; reflexivity).
    rewrite (H H1 H2 fresh [] H3). reflexivity.
  - destruct (@setup_sequencing P O ready) as (H & _).
    assert (H1 : state (self ready) <> UNCONFIGURED) by discriminate.
    rewrite (H H1). reflexivity.
Defined.

Lemma postprocess_unguarded_witness :
  state (self (final (@postprocess (quiet_parent []) fresh))) = PROCESSED.
Proof.
  destruct (@postprocess_unguarded (quiet_parent []) fresh)
    as (_ & _ & _ & H).
  apply H; [reflexivity | discriminate].
Defined.

Lemma statefile_removal_idempotent_witness :
  remove_statefile (final (remove_statefile ready)) =
  mkOutcome (final (remove_statefile ready))
    [Remove "/tmp/zaphome/add-ons-state.xml";
     Log INFO "The addon state file {statefile} was not created"
         [AStr "/tmp/zaphome/add-ons-state.xml"]]
    (Ok tt)
  /\ filter is_remove
       (events (@run (quiet_parent update_command) (scripted healthy 0 0) ready))
     = [Remove "/tmp/zaphome/add-ons-state.xml";
        Remove "/tmp/zaphome/add-ons-state.xml"].
Proof.
  set (P := quiet_parent update_command).
  set (O := scripted healthy 0 0).
  destruct (@statefile_removal_idempotent P O ready)
    as (_ & _ & _ & Htwice & Hrun).
  split; [exact Htwice |].
  assert (H1 : state (self ready) = READY) by reflexivity.
  assert (H2 : @_check_plugin_status P O ready =
               mkOutcome (final (@_check_plugin_status P O ready))
                         (events (@_check_plugin_status P O ready)) (Ok tt))
    by (vm_compute; reflexivity).
  pose (s2 := final (remove_statefile (final (@_check_plugin_status P O ready)))).
  assert (H3 : @_handle_plugins P O s2 =
               mkOutcome (final (@_handle_plugins P O s2))
                         (events (@_handle_plugins P O s2)) (Ok tt))
    by (vm_compute; reflexivity).
  destruct (Hrun H1 _ _ _ _ H2 H3) as (E & _).
  rewrite E. vm_compute. reflexivity.
Defined.

Lemma setup_ajax_spider_flag_unset_witness :
  @_setup_ajax_spider (quiet_parent []) (scripted healthy 0 0)
    (mkStore (scanner READY []) (machine "Linux" (Some 1024) (Some "100"))) =
  mkOutcome (mkStore (scanner READY []) (machine "Linux" (Some 1024) (Some "100")))
            [] (Ok tt).
Proof.
  apply (@setup_ajax_spider_flag_unset (quiet_parent []) (scripted healthy 0 0)).
  vm_compute. reflexivity.
Defined.

Lemma setup_ajax_spider_low_shm_witness :
  filter is_shm_warning
    (events (@_setup_ajax_spider (quiet_parent []) (scripted healthy 0 0) cramped))
  = [shm_warning GiB].
Proof.
  set (P := quiet_parent []).
  set (O := scripted healthy 0 0).
  destruct (@setup_ajax_spider_low_shm P O) as (_ & H).
  assert (H1 : system (host cramped) = "Linux") by reflexivity.
  assert (H2 : is_False (my_conf (self cramped) "spiderAjax" (PBool false)) = false)
    by (vm_compute; reflexivity).
  assert (H3 : shm_total (host cramped) = Some GiB) by reflexivity.
  assert (H4 : GiB <= GiB) by lia.
  destruct (H cramped GiB H1 H2 H3 H4) as (E & _).
  rewrite E. vm_compute. reflexivity.
Defined.

(** C9, as stated, fails on a container-like Linux host: with /dev/shm at
    exactly 1 GiB and pids.max at 100 the check logs two warnings, the
    shared-memory one and the pid-limit one. *)
Lemma setup_ajax_spider_two_warnings :
  system (host cramped) = "Linux"
  /\ is_False (my_conf (self cramped) "spiderAjax" (PBool false)) = false
  /\ shm_total (host cramped) = Some (1024 * 1024 * 1024)
  /\ filter is_warning
       (events (@_setup_ajax_spider (quiet_parent []) (scripted healthy 0 0) cramped))
     = [shm_warning (1024 * 1024 * 1024);
        Log WARNING
            "Number of threads may be too low for SpiderAjax: cgroupv2 pids.max={pid_val}"
            [AStr "100"]]
  /\ length (filter is_warning
               (events (@_setup_ajax_spider (quiet_parent []) (scripted healthy 0 0)
                                            cramped))) <> 1%nat.
Proof.
  split; [reflexivity |]. split; [vm_compute; reflexivity |].
  split; [reflexivity |]. split; [vm_compute; reflexivity |].
  vm_compute. discriminate.
Qed.

(** After a failed recovery [run] still goes on: the addon pass and the
    main scan follow the one install-all attempt, and the scan's own exit
    code decides the state. *)
Example run_after_failed_recovery :
  let o := @run (quiet_parent update_command) (scripted marker_later 1 0) ready in
  map (fun e => match e with Exec cmd _ => cmd | _ => [] end)
      (filter is_exec (events o)) =
    [ [PStr "zap.sh"; PStr "-config"; PStr "api.disablekey=true";
       PStr "-dir"; PStr "/tmp/zaphome"; PStr "-cmd"];
      [PStr "zap.sh"; PStr "-config"; PStr "api.disablekey=true";
       PStr "-dir"; PStr "/tmp/zaphome"; PStr "-cmd"; PStr "-addoninstallall"];
      [PStr "sh"; PStr "-c"; PStr "zap.sh -addonupdate -dir /tmp/zaphome"];
      [PStr "sh"; PStr "-c";
       PStr "zap.sh -dir /tmp/zaphome -cmd -autorun /tmp/work/af.yaml"] ]
  /\ result o = Ok tt
  /\ state (self (final o)) = DONE.
Proof. vm_compute. repeat split. Qed.

(** The scenario of tests/scanners/zap/test_setup_none.py: spiderAjax.url
    configured, a Linux host, a 64 MiB /dev/shm.  The shared-memory warning
    is logged, with the byte count in its text. *)
Example test_none_handling_ajax :
  filter is_shm_warning
    (events (@_setup_ajax_spider (quiet_parent []) (scripted healthy 0 0)
               (mkStore (scanner UNCONFIGURED ajax_entries) linux)))
  = [shm_warning (64 * 1024 * 1024)].
Proof. vm_compute. reflexivity. Qed.

(** * Further properties of the driver *)

Section MoreProperties.

Context {parent : Zap} {outside : Outside}.

Lemma bind_subprocess_run {B} (cmd : list pyval) (c : bool)
      (k : CompletedProcess -> M B) (s : Store) :
  bind (subprocess_run cmd c) k s =
  match snd (spawn cmd (host s)) with
  | Ok p => after [Exec cmd c] (k p (mkStore (self s) (fst (spawn cmd (host s)))))
  | Raised e =>
      mkOutcome (mkStore (self s) (fst (spawn cmd (host s)))) [Exec cmd c] (Raised e)
  end.
Proof.
  unfold bind at 1. rewrite subprocess_run_spec. cbn [result final events].
  destruct (snd (spawn cmd (host s))); reflexivity.
Qed.

Lemma bind_anonymous_download {B} (url dest : string) (proxy : pyval)
      (k : unit -> M B) (s : Store) :
  bind (anonymous_download url dest proxy) k s =
  match snd (fetch url dest proxy (host s)) with
  | Ok _ =>
      after [Download url dest proxy]
            (k tt (mkStore (self s) (fst (fetch url dest proxy (host s)))))
  | Raised e =>
      mkOutcome (mkStore (self s) (fst (fetch url dest proxy (host s))))
                [Download url dest proxy] (Raised e)
  end.
Proof.
  unfold bind at 1. rewrite anonymous_download_spec. cbn [result final events].
  destruct (snd (fetch url dest proxy (host s))) as [[] | e]; reflexivity.
Qed.

(** Collapse a chain of [after]s around a finished outcome and read its
    fields. *)
Ltac collapse := rewrite ?after_mk; cbn [events result final app].

(** The branch [_check_plugin_status] takes after a failed verification
    run whose stderr [find] does not place the marker at a positive
    offset. *)
Lemma check_plugin_status_unrecognised (s : Store) (h1 : Host) (p : CompletedProcess) :
  spawn (viability_command (self s)) (host s) = (h1, Ok p) ->
  returncode p <> 0 ->
  (find (stderr p) MARKER >? 0) = false ->
  _check_plugin_status s =
  mkOutcome (mkStore (self s) h1)
    [Log INFO "Zap: verifying the viability of ZAP" [];
     Log DEBUG "ZAP create home command: {command}"
         [ACmd (viability_command (self s))];
     Exec (viability_command (self s)) true;
     Log WARNING "ZAP appears to be in a incorrect state. Error: {result.stderr}"
         [ABytes (stderr p)]]
    (Ok tt).
Proof.
  intros Hrun Hrc Hfind. unfold _check_plugin_status. steps.
  rewrite (bind_Ok _ _ _ _ _ _ (subprocess_run_returns _ true _ _ _ Hrun)).
  cbn beta.
  destruct (Z.eqb_spec (returncode p) 0) as [E | _]; [contradiction |].
  rewrite Hfind. unfold log, emit. rewrite ?after_mk. reflexivity.
Qed.

Lemma check_plugin_status_recovery_trace (s : Store) (h1 : Host) (p : CompletedProcess) :
  spawn (viability_command (self s)) (host s) = (h1, Ok p) ->
  returncode p <> 0 ->
  (find (stderr p) MARKER >? 0) = true ->
  events (_check_plugin_status s) =
  ([Log INFO "Zap: verifying the viability of ZAP" [];
    Log DEBUG "ZAP create home command: {command}"
        [ACmd (viability_command (self s))];
    Exec (viability_command (self s)) true;
    Log INFO "Missing mandatory plugins. Fixing" []]
     ++ recovery_tail (self s) h1)%list.
Proof.
  intros Hrun Hrc Hfind. unfold _check_plugin_status, recovery_tail. steps.
  rewrite (bind_Ok _ _ _ _ _ _ (subprocess_run_returns _ true _ _ _ Hrun)).
  cbn beta.
  destruct (Z.eqb_spec (returncode p) 0) as [E | _]; [contradiction |].
  rewrite Hfind. steps. rewrite bind_anonymous_download. cbn [self host].
  fold callhome_url (callhome_dest (self s)).
  destruct (fetch callhome_url (callhome_dest (self s))
                  (my_conf (self s) "proxy" PNone) h1) as [h2 [[] | e]];
    cbn [fst snd]; [| collapse; reflexivity].
  steps. rewrite bind_anonymous_download. cbn [self host].
  fold network_url (network_dest (self s)).
  destruct (fetch network_url (network_dest (self s))
                  (my_conf (self s) "proxy" PNone) h2) as [h3 [[] | e]];
    cbn [fst snd]; [| collapse; reflexivity].
  steps. rewrite bind_subprocess_run. cbn [self host].
  fold (install_all_command (self s)).
  destruct (spawn (install_all_command (self s)) h3) as [h4 [p2 | e]];
    cbn [fst snd]; unfold ret; collapse; reflexivity.
Qed.

(** X1: after a verification run that returned, the check downloads
    something exactly when the run failed and the marker occurs in stderr
    somewhere other than its very start. *)
Theorem recovery_entered_iff (s : Store) (h1 : Host) (p : CompletedProcess) :
  spawn (viability_command (self s)) (host s) = (h1, Ok p) ->
  filter is_download (events (_check_plugin_status s)) <> [] <->
  returncode p <> 0
  /\ startswith MARKER (stderr p) = false
  /\ exists pre post, stderr p = (pre ++ MARKER ++ post)%string.
Proof.
  intros Hrun. destruct (Z.eq_dec (returncode p) 0) as [Hrc | Hrc].
  - rewrite (check_plugin_status_clean_exit s h1 p Hrun Hrc).
    split; [intros H; exfalso; apply H; reflexivity | tauto].
  - destruct (find (stderr p) MARKER >? 0) eqn:Hfind.
    + rewrite (check_plugin_status_recovery_trace s h1 p Hrun Hrc Hfind).
      split.
      * intros _. split; [exact Hrc |]. apply find_pos_iff.
        rewrite Z.gtb_ltb in Hfind. apply Z.ltb_lt in Hfind. lia.
      * intros _. unfold recovery_tail. cbn. discriminate.
    + rewrite (check_plugin_status_unrecognised s h1 p Hrun Hrc Hfind).
      split; [intros H; exfalso; apply H; reflexivity |].
      intros (_ & Hstart & Hocc).
      assert (find (stderr p) MARKER > 0) by (apply find_pos_iff; tauto).
      rewrite Z.gtb_ltb in Hfind. apply Z.ltb_ge in Hfind. lia.
Qed.

Lemma check_plugin_status_spawn_raised (s : Store) (h1 : Host) (e : exn) :
  spawn (viability_command (self s)) (host s) = (h1, Raised e) ->
  _check_plugin_status s =
  mkOutcome (mkStore (self s) h1)
    [Log INFO "Zap: verifying the viability of ZAP" [];
     Log DEBUG "ZAP create home command: {command}"
         [ACmd (viability_command (self s))];
     Exec (viability_command (self s)) true]
    (Raised e).
Proof.
  intros Hrun. unfold _check_plugin_status. steps.
  rewrite (bind_Raised _ _ _ _ _ _ (subprocess_run_returns _ true _ _ _ Hrun)).
  rewrite ?after_mk. reflexivity.
Qed.

Lemma recovery_tail_bounded (sc : Scanner) (h1 : Host) :
  (length (filter is_exec (recovery_tail sc h1)) <= 1)%nat
  /\ (length (filter is_download (recovery_tail sc h1)) <= 2)%nat
  /\ filter is_warning (recovery_tail sc h1) = [].
Proof.
  unfold recovery_tail.
  destruct (snd (fetch callhome_url (callhome_dest sc) (my_conf sc "proxy" PNone) h1));
    [| vm_compute; repeat split; lia].
  destruct (snd (fetch network_url (network_dest sc) (my_conf sc "proxy" PNone) _));
    vm_compute; repeat split; lia.
Qed.

(** X2: the viability check is bounded on every host: whatever the child
    processes and the downloads do, it runs at most two commands, the
    verification run always first, and makes at most two downloads.  There
    is no loop and no second recovery. *)
Theorem check_plugin_status_bounded (s : Store) :
  let ev := events (_check_plugin_status s) in
  (1 <= length (filter is_exec ev) <= 2)%nat
  /\ head (filter is_exec ev) = Some (Exec (viability_command (self s)) true)
  /\ (length (filter is_download ev) <= 2)%nat.
Proof.
  intros ev. subst ev.
  destruct (spawn (viability_command (self s)) (host s)) as [h1 [p | e]] eqn:Hrun.
  - destruct (Z.eq_dec (returncode p) 0) as [Hrc | Hrc].
    + rewrite (check_plugin_status_clean_exit s h1 p Hrun Hrc).
      vm_compute. repeat split; lia.
    + destruct (find (stderr p) MARKER >? 0) eqn:Hfind.
      * rewrite (check_plugin_status_recovery_trace s h1 p Hrun Hrc Hfind).
        destruct (recovery_tail_bounded (self s) h1) as (Hx & Hd & _).
        set (t := recovery_tail (self s) h1) in *.
        change (1 <= S (length (filter is_exec t)) <= 2
                /\ Some (Exec (viability_command (self s)) true)
                   = Some (Exec (viability_command (self s)) true)
                /\ length (filter is_download t) <= 2)%nat.
        repeat split; lia.
      * rewrite (check_plugin_status_unrecognised s h1 p Hrun Hrc Hfind).
        vm_compute. repeat split; lia.
  - rewrite (check_plugin_status_spawn_raised s h1 e Hrun).
    vm_compute. repeat split; lia.
Qed.

(** X3: a download that fails is fatal to the whole phase.  When the first
    remediation download raises, [run] raises the same exception right
    there: no second download, no install-all run, no addon pass, no main
    scan, and the scanner is still READY. *)
Theorem download_failure_aborts_run
        (s : Store) (h1 h2 : Host) (p : CompletedProcess) (e : exn) :
  let sc := self s in
  state sc = READY ->
  spawn (viability_command sc) (host s) = (h1, Ok p) ->
  returncode p <> 0 ->
  find (stderr p) MARKER > 0 ->
  fetch callhome_url (callhome_dest sc) (my_conf sc "proxy" PNone) h1
    = (h2, Raised e) ->
  run s =
  mkOutcome (mkStore sc h2)
    [Log INFO "Running up the ZAP scanner on the host" [];
     Log INFO "Zap: verifying the viability of ZAP" [];
     Log DEBUG "ZAP create home command: {command}" [ACmd (viability_command sc)];
     Exec (viability_command sc) true;
     Log INFO "Missing mandatory plugins. Fixing" [];
     Download callhome_url (callhome_dest sc) (my_conf sc "proxy" PNone)]
    (Raised e).
Proof.
  intros sc Hready Hrun Hrc Hfind Hf1. subst sc.
  assert (Hcheck : _check_plugin_status s =
    mkOutcome (mkStore (self s) h2)
      [Log INFO "Zap: verifying the viability of ZAP" [];
       Log DEBUG "ZAP create home command: {command}"
           [ACmd (viability_command (self s))];
       Exec (viability_command (self s)) true;
       Log INFO "Missing mandatory plugins. Fixing" [];
       Download callhome_url (callhome_dest (self s))
                (my_conf (self s) "proxy" PNone)]
      (Raised e)).
  { unfold _check_plugin_status. steps.
    rewrite (bind_Ok _ _ _ _ _ _ (subprocess_run_returns _ true _ _ _ Hrun)).
    cbn beta.
    destruct (Z.eqb_spec (returncode p) 0) as [E | _]; [contradiction |].
    destruct (Z.gtb_spec (find (stderr p) MARKER) 0) as [_ | E]; [| lia].
    steps. cbn [self host].
    rewrite (bind_Raised _ _ _ _ _ _
               (anonymous_download_returns _ _ _ (mkStore (self s) h1) _ _ Hf1)).
    rewrite ?after_mk. reflexivity. }
  unfold run. steps. rewrite Hready.
  rewrite bool_decide_eq_true_2 by reflexivity. cbn [negb].
  rewrite (bind_Raised _ _ _ _ _ _ Hcheck). rewrite ?after_mk. reflexivity.
Qed.

(** ** The addon pass *)

(** X4: the addon pass.  With nothing to update it is one debug line and
    no command.  Otherwise it runs the update command, extended with the
    home directory, through [sh -c], exactly once; a non-zero exit is
    answered by one warning and nothing else: the pass returns normally and
    the scanner, its state included, is the same. *)
Theorem handle_plugins_outcome (s : Store) :
  (get_update_command (self s) = [] ->
   _handle_plugins s =
   mkOutcome s [Log DEBUG "Skpping addon handling: no install, no update" []]
             (Ok tt))
  /\ (get_update_command (self s) <> [] ->
      forall h1 p,
        spawn (update_shell (self s)) (host s) = (h1, Ok p) ->
        _handle_plugins s =
        mkOutcome (mkStore (self s) h1)
          ([Log DEBUG "Addons setup command: {shell}" [ACmd (update_shell (self s))];
            Exec (update_shell (self s)) false]
             ++ (if returncode p =? 0 then []
                 else [Log WARNING
                           "ZAP did not handle the addon requirements correctly, and exited with code {result.returncode}"
                           [AInt (returncode p)]]))%list
          (Ok tt)).
Proof.
  split.
  - intros Hcmd. unfold _handle_plugins. steps. rewrite Hcmd.
    destruct s; reflexivity.
  - intros Hcmd h1 p Hrun. unfold _handle_plugins, update_shell in *. steps.
    destruct (get_update_command (self s)) as [| t ts] eqn:E; [contradiction |].
    steps.
    rewrite (bind_Ok _ _ _ _ _ _ (subprocess_run_returns _ false _ _ _ Hrun)).
    cbn beta. destruct (returncode p =? 0); cbn [negb]; unfold ret, log, emit;
      rewrite ?after_mk; reflexivity.
Qed.

(** ** [run] as a whole *)

Lemma keeps_run_prelude : keeps_self run_prelude.
Proof.
  unfold run_prelude.
  apply keeps_bind; [apply keeps_check_plugin_status | intros _].
  apply keeps_bind; [apply keeps_remove_statefile | intros _].
  apply keeps_bind; [apply keeps_handle_plugins | intros _].
  apply keeps_remove_statefile.
Qed.

Lemma run_guard (s : Store) :
  state (self s) <> READY ->
  run s =
  mkOutcome s [Log INFO "Running up the ZAP scanner on the host" []]
            (Raised (RuntimeError "[ZAP SCANNER]: ERROR, not ready to run" [])).
Proof.
  intros H. unfold run. steps.
  rewrite bool_decide_eq_false_2 by exact H. cbn [negb]. unfold raise.
  rewrite ?after_mk. reflexivity.
Qed.

Lemma real_run_outcome (s : Store) :
  match snd (spawn (main_command (self s)) (host s)) with
  | Ok p =>
      final (real_run s) =
        mkStore (with_state (classify (returncode p)) (self s))
                (fst (spawn (main_command (self s)) (host s)))
      /\ result (real_run s) = Ok tt
  | Raised e =>
      self (final (real_run s)) = self s /\ result (real_run s) = Raised e
  end
  /\ filter is_exec (events (real_run s)) = [Exec (main_command (self s)) false].
Proof.
  unfold real_run, main_command. steps. rewrite bind_subprocess_run.
  destruct (spawn _ (host s)) as [h1 [p | e]]; cbn [fst snd].
  - steps. unfold classify.
    destruct (existsb (Z.eqb (returncode p)) [0; 2]); steps;
      unfold set_state; rewrite ?after_mk; repeat split.
  - rewrite ?after_mk. repeat split.
Qed.

(** X5: [run] writes the state in its very last step only.  Whenever it
    raises, for whatever reason (wrong phase, a command that cannot be
    started, a failed download), the scanner object is exactly what it was:
    in particular a READY scanner stays READY. *)
Theorem run_raises_keeps_scanner (s : Store) (e : exn) :
  result (run s) = Raised e ->
  self (final (run s)) = self s.
Proof.
  destruct (decide (state (self s) = READY)) as [Hready | Hnot].
  - rewrite (run_ready s Hready). cbn [after result final].
    unfold bind. pose proof (keeps_run_prelude s) as Hkeep.
    destruct (run_prelude s) as [s1 e1 [[] | e']];
      cbn [after result final events] in *.
    + destruct (real_run_outcome s1) as [Hout _].
      destruct (snd (spawn (main_command (self s1)) (host s1))) as [p | e'].
      * destruct Hout as [_ Hres]. rewrite Hres. discriminate.
      * destruct Hout as [Hself _]. intros _. rewrite Hself. exact Hkeep.
    + intros _. exact Hkeep.
  - rewrite (run_guard s Hnot). reflexivity.
Qed.

(** X6: the main scan is started exactly once, as the last command of
    [run], whatever its exit code: there is no retry.  Apart from the
    state, which becomes the classification of that code, the scanner
    object is unchanged. *)
Theorem run_scans_once
        (s s1 : Store) (ev : list Event) (h1 : Host) (p : CompletedProcess) :
  state (self s) = READY ->
  run_prelude s = mkOutcome s1 ev (Ok tt) ->
  spawn (main_command (self s)) (host s1) = (h1, Ok p) ->
  filter is_exec (events (run s)) =
    (filter is_exec ev ++ [Exec (main_command (self s)) false])%list
  /\ final (run s) = mkStore (with_state (classify (returncode p)) (self s)) h1.
Proof.
  intros Hready Hpre Hmain.
  assert (Hself : self s1 = self s).
  { pose proof (keeps_run_prelude s) as K. rewrite Hpre in K. exact K. }
  rewrite <- Hself in Hmain.
  destruct (real_run_outcome s1) as [Hout Hexec].
  rewrite Hmain in Hout. cbn [fst snd] in Hout. destruct Hout as [Hfin _].
  rewrite (run_ready s Hready), (bind_Ok _ _ _ _ _ _ Hpre).
  cbn [after events final]. rewrite Hfin, Hself. split; [| reflexivity].
  change (filter is_exec (ev ++ events (real_run s1))%list =
          (filter is_exec ev ++ [Exec (main_command (self s)) false])%list).
  rewrite filter_app, Hexec, Hself. reflexivity.
Qed.

(** X7: [run] is not re-entrant.  Once a run has gone through to the main
    scan, a second call raises the sequencing error at once, with no effect
    but its opening log line, whether the scan succeeded or failed. *)
Theorem run_twice_raises
        (s s1 : Store) (ev : list Event) (h1 : Host) (p : CompletedProcess) :
  state (self s) = READY ->
  run_prelude s = mkOutcome s1 ev (Ok tt) ->
  spawn (main_command (self s1)) (host s1) = (h1, Ok p) ->
  run (final (run s)) =
  mkOutcome (final (run s))
            [Log INFO "Running up the ZAP scanner on the host" []]
            (Raised (RuntimeError "[ZAP SCANNER]: ERROR, not ready to run" [])).
Proof.
  intros Hready Hpre Hmain. apply run_guard.
  destruct (real_run_outcome s1) as [Hout _].
  rewrite Hmain in Hout. cbn [fst snd] in Hout. destruct Hout as [Hfin _].
  rewrite (run_ready s Hready), (bind_Ok _ _ _ _ _ _ Hpre).
  cbn [after final]. rewrite Hfin. cbn [self state with_state].
  unfold classify. destruct (existsb _ _); discriminate.
Qed.

(** ** The later phases *)

Lemma cleanup_guard (s : Store) :
  state (self s) <> PROCESSED ->
  cleanup s =
  mkOutcome s [Log INFO "Running cleanup for the ZAP Host environment" []]
    (Raised (RuntimeError "No cleanning up as ZAP did not processed results." [])).
Proof.
  intros H. unfold cleanup. steps.
  rewrite bool_decide_eq_false_2 by exact H. cbn [negb]. unfold raise.
  rewrite ?after_mk. reflexivity.
Qed.

Lemma postprocess_returns (s s1 : Store) (ev : list Event) :
  Zap_postprocess s = mkOutcome s1 ev (Ok tt) ->
  postprocess s =
  mkOutcome
    (if decide (state (self s1) = ERROR) then s1
     else mkStore (with_state PROCESSED (self s1)) (host s1))
    (Log INFO "Running postprocess for the ZAP Host environment" [] :: ev)
    (Ok tt).
Proof.
  intros H. unfold postprocess. steps. rewrite (bind_Ok _ _ _ _ _ _ H). steps.
  destruct (decide (state (self s1) = ERROR)) as [E | E].
  - rewrite bool_decide_eq_true_2 by exact E. cbn [negb]. unfold ret.
    rewrite ?after_mk. rewrite app_nil_r. reflexivity.
  - rewrite bool_decide_eq_false_2 by exact E. cbn [negb]. unfold set_state.
    rewrite ?after_mk. rewrite app_nil_r. reflexivity.
Qed.

(** X8: [cleanup] from PROCESSED.  It logs, runs the parent's cleanup on
    the store as it stands and returns what that returns; after a normal
    return the state is CLEANEDUP unless the parent left ERROR, which then
    stays; when the parent raises, the state is what the parent left. *)
Theorem cleanup_from_processed (s : Store) :
  state (self s) = PROCESSED ->
  let o := Zap_cleanup s in
  events (cleanup s) =
    Log INFO "Running cleanup for the ZAP Host environment" [] :: events o
  /\ result (cleanup s) = result o
  /\ state (self (final (cleanup s))) =
     match result o with
     | Ok _ => if decide (state (self (final o)) = ERROR) then ERROR else CLEANEDUP
     | Raised _ => state (self (final o))
     end.
Proof.
  intros H o. subst o. unfold cleanup. steps. rewrite H.
  rewrite bool_decide_eq_true_2 by reflexivity. cbn [negb]. unfold bind.
  destruct (Zap_cleanup s) as [s1 e1 [[] | e]]; cbn [result final events].
  - unfold get_self. cbn [result final events]. rewrite after_nil.
    destruct (decide (state (self s1) = ERROR)) as [E | E].
    + rewrite bool_decide_eq_true_2 by exact E. cbn [negb]. unfold ret.
      rewrite !after_mk. cbn [result final events app]. rewrite app_nil_r.
      repeat split. exact E.
    + rewrite bool_decide_eq_false_2 by exact E. cbn [negb]. unfold set_state.
      rewrite !after_mk. cbn [result final events app self with_state state].
      rewrite app_nil_r. repeat split.
  - rewrite after_mk. cbn [result final events app]. repeat split.
Qed.

(** X9: a failed scan is never cleaned up.  From the ERROR state,
    [postprocess] (whose parent part returns and leaves the state alone)
    keeps ERROR, and the [cleanup] that follows raises before the parent's
    cleanup is reached: the trace ends with cleanup's opening log line. *)
Theorem error_state_blocks_cleanup (s s1 : Store) (ev : list Event) :
  Zap_postprocess s = mkOutcome s1 ev (Ok tt) ->
  state (self s1) = ERROR ->
  (postprocess ;; cleanup) s =
  mkOutcome s1
    (Log INFO "Running postprocess for the ZAP Host environment" [] :: ev
       ++ [Log INFO "Running cleanup for the ZAP Host environment" []])%list
    (Raised (RuntimeError "No cleanning up as ZAP did not processed results." [])).
Proof.
  intros Hpost Herr.
  pose proof (postprocess_returns s s1 ev Hpost) as Hpp.
  destruct (decide (state (self s1) = ERROR)) as [_ | E]; [| contradiction].
  rewrite (bind_Ok _ _ _ _ _ _ Hpp).
  rewrite cleanup_guard by (rewrite Herr; discriminate).
  rewrite after_mk. reflexivity.
Qed.

(** ** The HOME directory *)

(** X10: [_create_home_if_needed].  With HOME unset it raises [KeyError]
    and touches nothing; with a writable HOME it only performs the access
    test; otherwise it asks the parent for a temporary directory and binds
    HOME to it in the process environment, leaving every other variable
    and the scanner as the parent left them. *)
Theorem create_home_outcome (s : Store) :
  (environ (host s) !! "HOME" = None ->
   _create_home_if_needed s = mkOutcome s [] (Raised (KeyError "HOME")))
  /\ (forall home,
        environ (host s) !! "HOME" = Some home ->
        home ∈ writable (host s) ->
        _create_home_if_needed s = mkOutcome s [Access home] (Ok tt))
  /\ (forall home s1 e1 d,
        environ (host s) !! "HOME" = Some home ->
        home ∉ writable (host s) ->
        _create_temp_dir "home" s = mkOutcome s1 e1 (Ok d) ->
        let o := _create_home_if_needed s in
        result o = Ok tt
        /\ events o =
           (Access home :: e1
              ++ [Log DEBUG "Replaced HOME directory, to {os.environ['HOME']}"
                      [AStr d]])%list
        /\ self (final o) = self s1
        /\ environ (host (final o)) !! "HOME" = Some d
        /\ (forall k, k <> "HOME" ->
             environ (host (final o)) !! k = environ (host s1) !! k)
        /\ files (host (final o)) = files (host s1)).
Proof.
  split; [| split].
  - intros H. unfold _create_home_if_needed. steps. rewrite H. reflexivity.
  - intros home H Hw. unfold _create_home_if_needed. steps. rewrite H.
    unfold os_access_W_OK. steps.
    rewrite bool_decide_eq_true_2 by exact Hw. unfold ret.
    rewrite ?after_mk. reflexivity.
  - intros home s1 e1 d H Hw Htmp o. subst o.
    unfold _create_home_if_needed. steps. rewrite H.
    unfold os_access_W_OK. steps.
    rewrite bool_decide_eq_false_2 by exact Hw.
    rewrite (bind_Ok _ _ _ _ _ _ Htmp). steps. unfold log, emit.
    rewrite ?after_mk. cbn [result events final self host environ files
                              with_environ app].
    split; [reflexivity |]. split; [reflexivity |]. split; [reflexivity |].
    split; [apply lookup_insert_eq |]. split; [| reflexivity].
    intros k Hk. apply lookup_insert_ne. congruence.
Qed.

(** X11: [setup] sets READY before it looks at HOME.  When the parent's
    setup and the policy copy went through but HOME is not set, [setup]
    raises [KeyError] and yet leaves the scanner READY. *)
Theorem setup_raises_after_ready (s s1 : Store) (ev : list Event) :
  state (self s) = UNCONFIGURED ->
  (Zap_setup ;; copy_policy) s = mkOutcome s1 ev (Ok tt) ->
  state (self s1) <> ERROR ->
  environ (host s1) !! "HOME" = None ->
  setup s =
  mkOutcome (mkStore (with_state READY (self s1)) (host s1)) ev
            (Raised (KeyError "HOME")).
Proof.
  intros Hst Hsub Hne Hhome.
  rewrite (setup_unconfigured s Hst), (bind_Ok _ _ _ _ _ _ Hsub). steps.
  rewrite bool_decide_eq_false_2 by exact Hne. cbn [negb]. steps.
  unfold _create_home_if_needed. steps. cbn [host]. rewrite Hhome.
  unfold raise. rewrite ?after_mk. rewrite app_nil_r. reflexivity.
Qed.

(** X12: [setup] is not re-entrant.  After a setup that went through its
    provisioning, a second call raises the sequencing error without any
    effect, naming the state the first call left: READY, or ERROR. *)
Theorem setup_twice_raises (s s1 : Store) (ev : list Event) :
  state (self s) = UNCONFIGURED ->
  (forall name s',
      state (self (final (_create_temp_dir name s'))) = state (self s')) ->
  (Zap_setup ;; copy_policy) s = mkOutcome s1 ev (Ok tt) ->
  let st := if decide (state (self s1) = ERROR) then ERROR else READY in
  setup (final (setup s)) =
  mkOutcome (final (setup s)) []
    (Raised (RuntimeError "ZAP setup encounter an unexpected state: {self.state}"
                          [AState st])).
Proof.
  intros Hst Htmp Hsub st.
  assert (Hfinal : state (self (final (setup s))) = st).
  { rewrite (setup_unconfigured s Hst), (bind_Ok _ _ _ _ _ _ Hsub). steps.
    cbn [after final]. subst st.
    destruct (decide (state (self s1) = ERROR)) as [E | E].
    - rewrite bool_decide_eq_true_2 by exact E. cbn [negb]. steps.
      rewrite create_home_keeps_state by exact Htmp. exact E.
    - rewrite bool_decide_eq_false_2 by exact E. cbn [negb]. steps.
      rewrite create_home_keeps_state by exact Htmp. reflexivity. }
  unfold setup at 1. steps. rewrite Hfinal.
  rewrite bool_decide_eq_false_2
    by (subst st; destruct (decide _); discriminate).
  reflexivity.
Qed.

(** ** The resource checks *)

(** X13: the pid-limit check never raises and never changes the store; it
    reads pids.max once and logs one line.  That line is a warning exactly
    when the file could be read, does not say max, and holds no number
    above 10000: a value of exactly 10000 warns, and so does a value that
    does not parse. *)
Theorem pid_limit_warns_iff (s : Store) :
  final (check_pid_limit s) = s
  /\ result (check_pid_limit s) = Ok tt
  /\ length (events (check_pid_limit s)) = 2%nat
  /\ (filter is_warning (events (check_pid_limit s)) <> [] <->
      exists v, pids_max (host s) = Some v
                /\ v <> "max"
                /\ forall n, int v = Some n -> n <= 10000).
Proof.
  rewrite check_pid_limit_spec. cbn [final result events].
  split; [reflexivity |]. split; [reflexivity |]. split; [reflexivity |].
  unfold pid_limit_log.
  destruct (pids_max (host s)) as [v |].
  - destruct (String.eqb_spec v "max") as [-> | Hmax].
    + split; [intros H; exfalso; apply H; reflexivity |].
      intros (v & Hv & Hne & _). congruence.
    + destruct (int v) as [n |] eqn:Hint.
      * destruct (Z.gtb_spec n 10000) as [Hgt | Hle].
        -- split; [intros H; exfalso; apply H; reflexivity |].
           intros (v' & Hv & _ & Hn). injection Hv as <-.
           specialize (Hn n Hint). lia.
        -- split; [intros _ | intros _; discriminate].
           exists v. split; [reflexivity |]. split; [exact Hmax |].
           intros n' Hn'. rewrite Hint in Hn'. injection Hn' as <-. exact Hle.
      * split; [intros _ | intros _; discriminate].
        exists v. split; [reflexivity |]. split; [exact Hmax |].
        intros n' Hn'. congruence.
  - split; [intros H; exfalso; apply H; reflexivity |].
    intros (v & Hv & _). discriminate.
Qed.

(** X14: the shared-memory check never raises and never changes the store.
    It logs the insufficient-memory warning exactly when /dev/shm exists
    and its total is at most 1 GiB; a missing /dev/shm is reported by a
    warning of its own and is not an error. *)
Theorem shared_memory_warns_iff (s : Store) :
  final (check_shared_memory s) = s
  /\ result (check_shared_memory s) = Ok tt
  /\ (filter is_shm_warning (events (check_shared_memory s)) <> [] <->
      exists n, shm_total (host s) = Some n /\ n <= GiB)
  /\ (shm_total (host s) = None ->
      events (check_shared_memory s) =
      [DiskUsage "/dev/shm/";
       Log WARNING "/dev/shm not present. Unable to calcuate shared memory size" []]).
Proof.
  rewrite check_shared_memory_spec. cbn [final result events].
  split; [reflexivity |]. split; [reflexivity |].
  destruct (shm_total (host s)) as [n |].
  - split; [| discriminate].
    destruct (Z.leb_spec n GiB) as [Hle | Hgt].
    + split; [intros _; exists n; split; [reflexivity | exact Hle] |].
      intros _. discriminate.
    + split; [intros H; exfalso; apply H; reflexivity |].
      intros (n' & Hn & Hle). injection Hn as <-. lia.
  - split; [| reflexivity].
    split; [intros H; exfalso; apply H; reflexivity |].
    intros (n & Hn & _). discriminate.
Qed.

(** X15: off Linux the resource checks are skipped altogether.  With the
    flag set and [platform.system()] returning anything but the exact
    string Linux, the method asks for the platform and hands over to the
    parent: no disk usage, no file read, no line logged of its own. *)
Theorem setup_ajax_spider_not_linux (s : Store) :
  is_False (my_conf (self s) "spiderAjax" (PBool false)) = false ->
  system (host s) <> "Linux" ->
  _setup_ajax_spider s =
  mkOutcome (final (Zap__setup_ajax_spider s))
            (PlatformSystem :: events (Zap__setup_ajax_spider s))
            (result (Zap__setup_ajax_spider s)).
Proof.
  intros Hflag Hsys. rewrite (setup_ajax_spider_flag_set s Hflag).
  unfold own_checks.
  destruct (String.eqb_spec (system (host s)) "Linux") as [E | _];
    [contradiction |].
  reflexivity.
Qed.

(** X16: only the boolean False switches the Ajax setup off.  The method
    is the empty computation exactly when the spiderAjax entry is absent or
    is False itself; any other configured value, None, 0 or an empty string
    included, lets it run. *)
Theorem setup_ajax_spider_noop_iff (s : Store) :
  _setup_ajax_spider s = mkOutcome s [] (Ok tt) <->
  my_conf (self s) "spiderAjax" (PBool false) = PBool false.
Proof.
  split.
  - intros H.
    destruct (is_False (my_conf (self s) "spiderAjax" (PBool false))) eqn:Hflag.
    + destruct (my_conf (self s) "spiderAjax" (PBool false)) as [| [|] | | |];
        try discriminate Hflag. reflexivity.
    + rewrite (setup_ajax_spider_flag_set s Hflag) in H.
      apply (f_equal events) in H. discriminate H.
  - intros H. unfold _setup_ajax_spider. steps. rewrite H. reflexivity.
Qed.

(** ** The scan policy *)

Lemma is_False_false (v : pyval) : is_False v = false <-> v <> PBool false.
Proof.
  destruct v as [| [|] | | |]; cbn; split; intros H; try reflexivity;
    try discriminate; try congruence.
Qed.

(** X17: the policy copy.  Without an activeScan entry (or with False) it
    does nothing.  With one, it creates the policies directory of the
    temporary home and then includes the policy file named by
    activeScan.policy, API-scan-minimal by default, from the module's
    policies directory; when the directory already exists, [os.mkdir]
    raises [FileExistsError] and no file is included. *)
Theorem copy_policy_outcome (s : Store) :
  let dir := host_policies_dir (self s) in
  let policy := my_conf (self s) "activeScan.policy" (PStr "API-scan-minimal") in
  (my_conf (self s) "activeScan" (PBool false) = PBool false ->
   copy_policy s = mkOutcome s [] (Ok tt))
  /\ (my_conf (self s) "activeScan" (PBool false) <> PBool false ->
      dir ∈ files (host s) ->
      copy_policy s = mkOutcome s [Mkdir dir] (Raised (FileExistsError dir)))
  /\ (my_conf (self s) "activeScan" (PBool false) <> PBool false ->
      dir ∉ files (host s) ->
      copy_policy s =
      after [Mkdir dir]
        (_include_file
           (MODULE_DIR ++ "/policies/" ++ str policy ++ ".policy")
           (container_policies_dir (self s) ++ "/" ++ str policy ++ ".policy")
           (mkStore (self s) (with_files ({[dir]} ∪ files (host s)) (host s))))).
Proof.
  intros dir policy. subst dir policy. split; [| split].
  - intros H. unfold copy_policy. steps. rewrite H. reflexivity.
  - intros H Hin. apply is_False_false in H.
    unfold copy_policy. steps. rewrite H. cbn [negb].
    unfold os_mkdir. steps.
    rewrite bool_decide_eq_true_2 by exact Hin. reflexivity.
  - intros H Hnot. apply is_False_false in H.
    unfold copy_policy. steps. rewrite H. cbn [negb].
    unfold os_mkdir. steps.
    rewrite bool_decide_eq_false_2 by exact Hnot. steps. reflexivity.
Qed.

(** X18: a policies directory left over in the home makes [setup] fail.
    With active scanning configured and the directory already there,
    [setup] raises [FileExistsError] right after the parent's setup: the
    state is not advanced to READY and HOME is not looked at. *)
Theorem setup_existing_policies_dir (s s1 : Store) (e1 : list Event) :
  state (self s) = UNCONFIGURED ->
  Zap_setup s = mkOutcome s1 e1 (Ok tt) ->
  my_conf (self s1) "activeScan" (PBool false) <> PBool false ->
  host_policies_dir (self s1) ∈ files (host s1) ->
  setup s =
  mkOutcome s1 (e1 ++ [Mkdir (host_policies_dir (self s1))])%list
            (Raised (FileExistsError (host_policies_dir (self s1)))).
Proof.
  intros Hst Hparent Hactive Hin.
  unfold setup. steps. rewrite Hst.
  rewrite bool_decide_eq_true_2 by reflexivity. cbn [negb].
  rewrite (bind_Ok _ _ _ _ _ _ Hparent).
  apply is_False_false in Hactive.
  assert (Hcopy : copy_policy s1 =
            mkOutcome s1 [Mkdir (host_policies_dir (self s1))]
                      (Raised (FileExistsError (host_policies_dir (self s1))))).
  { unfold copy_policy. steps. rewrite Hactive. cbn [negb].
    unfold os_mkdir. steps.
    rewrite bool_decide_eq_true_2 by exact Hin. reflexivity. }
  rewrite (bind_Raised _ _ _ _ _ _ Hcopy). rewrite after_mk. reflexivity.
Qed.

(** ** The command line and the environment *)

(** X19: [_setup_zap_cli] starts the command line afresh.  What
    [self.zap_cli] held before has no influence: the parent always builds
    on the executable, [-dir] and the home directory, so when the parent
    only appends, the scan command line begins with these three tokens. *)
Theorem setup_zap_cli_fresh (Zap__setup_zap_cli : M unit) (s : Store) :
  (forall cli,
      _setup_zap_cli Zap__setup_zap_cli
                     (mkStore (with_zap_cli cli (self s)) (host s)) =
      _setup_zap_cli Zap__setup_zap_cli s)
  /\ (forall s1 e1 extra,
        Zap__setup_zap_cli
          (mkStore (with_zap_cli (base_cli (self s)) (self s)) (host s)) =
        mkOutcome s1 e1 (Ok tt) ->
        zap_cli (self s1) = (base_cli (self s) ++ extra)%list ->
        _setup_zap_cli Zap__setup_zap_cli s =
        mkOutcome s1
          (e1 ++ [Log DEBUG "ZAP will run with: {self.zap_cli}"
                      [ACmd (base_cli (self s) ++ extra)%list]])%list
          (Ok tt)).
Proof.
  split.
  - intros cli. unfold _setup_zap_cli. steps. unfold set_zap_cli.
    unfold bind at 1 3. cbn [result final events self host]. reflexivity.
  - intros s1 e1 extra Hparent Hcli. unfold _setup_zap_cli. steps.
    unfold set_zap_cli. unfold bind at 1. cbn [result final events self host].
    rewrite after_nil. fold (base_cli (self s)).
    rewrite (bind_Ok _ _ _ _ _ _ Hparent). steps. rewrite Hcli.
    unfold log, emit. rewrite after_mk. reflexivity.
Qed.

(** X20: [_add_env] writes the process environment only when given a
    value.  With None nothing changes; with a value the variable is bound
    to it, every other variable and the rest of the store stay as they
    were, and of two writes to one variable the later wins. *)
Theorem add_env_outcome (key v : string) (s : Store) :
  _add_env key None s = mkOutcome s [] (Ok tt)
  /\ (let o := _add_env key (Some v) s in
      result o = Ok tt /\ events o = [] /\ self (final o) = self s
      /\ files (host (final o)) = files (host s)
      /\ environ (host (final o)) !! key = Some v
      /\ forall k, k <> key ->
           environ (host (final o)) !! k = environ (host s) !! k)
  /\ (forall v',
        (_add_env key (Some v') ;; _add_env key (Some v)) s =
        _add_env key (Some v) s)
  /\ (_add_env key (Some v) ;; _add_env key None) s = _add_env key (Some v) s.
Proof.
  split; [reflexivity |]. split; [| split].
  - unfold _add_env. steps. unfold put_host.
    cbn [result events final self host environ files with_environ].
    split; [reflexivity |]. split; [reflexivity |]. split; [reflexivity |].
    split; [reflexivity |]. split; [apply lookup_insert_eq |].
    intros k Hk. apply lookup_insert_ne. congruence.
  - intros v'. unfold _add_env. steps. cbn [host self]. unfold put_host.
    unfold with_environ. cbn [environ files writable system shm_total pids_max].
    rewrite insert_insert_eq. reflexivity.
  - unfold _add_env. steps. cbn [host self]. unfold put_host, ret. reflexivity.
Qed.

End MoreProperties.

(** * The further properties on concrete runs *)

Import Cases.

Lemma recovery_entered_iff_witness :
  filter is_download
    (events (@_check_plugin_status (quiet_parent []) (scripted marker_later 0 0)
                                   ready)) <> []
  /\ ~ (filter is_download
          (events (@_check_plugin_status (quiet_parent []) (scripted marker_first 0 0)
                                         ready)) <> []).
Proof.
  split.
  - apply (@recovery_entered_iff (quiet_parent []) (scripted marker_later 0 0)
                                 ready linux marker_later); [reflexivity |].
    split; [discriminate |]. split; [reflexivity |].
    exists "ERROR ", " callhome". reflexivity.
  - intros H.
    apply (@recovery_entered_iff (quiet_parent []) (scripted marker_first 0 0)
                                 ready linux marker_first) in H; [| reflexivity].
    destruct H as (_ & Hstart & _). discriminate Hstart.
Defined.

Lemma download_failure_aborts_run_witness :
  result (@run (quiet_parent update_command) (offline marker_later) ready) =
    Raised (OtherError "HTTPError")
  /\ state (self (final (@run (quiet_parent update_command) (offline marker_later)
                              ready))) = READY.
Proof.
  set (P := quiet_parent update_command). set (O := offline marker_later).
  assert (H1 : state (self ready) = READY) by reflexivity.
  assert (H2 : @spawn O (@viability_command P (self ready)) (host ready) =
               (linux, Ok marker_later)) by reflexivity.
  assert (H3 : returncode marker_later <> 0) by discriminate.
  assert (H4 : find (stderr marker_later) MARKER > 0) by (vm_compute; reflexivity).
  assert (H5 : @fetch O callhome_url (callhome_dest (self ready))
                      (my_conf (self ready) "proxy" PNone) linux =
               (linux, Raised (OtherError "HTTPError"))) by reflexivity.
  rewrite (@download_failure_aborts_run P O ready linux linux marker_later
                                        (OtherError "HTTPError") H1 H2 H3 H4 H5).
  split; reflexivity.
Defined.

Lemma handle_plugins_outcome_witness :
  filter is_warning
    (events (@_handle_plugins (quiet_parent update_command) (scripted healthy 0 1)
                              ready))
  = [Log WARNING
         "ZAP did not handle the addon requirements correctly, and exited with code {result.returncode}"
         [AInt 1]]
  /\ events (@_handle_plugins (quiet_parent []) (scripted healthy 0 1) ready)
     = [Log DEBUG "Skpping addon handling: no install, no update" []].
Proof.
  split.
  - set (P := quiet_parent update_command). set (O := scripted healthy 0 1).
    destruct (@handle_plugins_outcome P O ready) as (_ & H).
    assert (H1 : @get_update_command P (self ready) <> []) by discriminate.
    assert (H2 : @spawn O (@update_shell P (self ready)) (host ready) =
                 (fst (@spawn O (@update_shell P (self ready)) (host ready)),
                  Ok (mkProc 1 "" ""))) by (vm_compute; reflexivity).
    rewrite (H H1 _ _ H2). vm_compute. reflexivity.
  - destruct (@handle_plugins_outcome (quiet_parent []) (scripted healthy 0 1) ready)
      as (H & _).
    rewrite H; reflexivity.
Defined.

Lemma run_raises_keeps_scanner_witness :
  self (final (@run (quiet_parent update_command) no_shell ready)) = self ready.
Proof.
  apply (@run_raises_keeps_scanner (quiet_parent update_command) no_shell ready
                                   (FileNotFoundError "sh")).
  vm_compute. reflexivity.
Defined.

Lemma run_scans_once_witness :
  length (filter is_exec
            (events (@run (quiet_parent update_command) (scripted healthy 0 1)
                          ready))) = 3%nat
  /\ state (self (final (@run (quiet_parent update_command) (scripted healthy 0 1)
                              ready))) = ERROR.
Proof.
  set (P := quiet_parent update_command). set (O := scripted healthy 0 1).
  assert (H1 : state (self ready) = READY) by reflexivity.
  assert (H2 : @run_prelude P O ready =
               mkOutcome (final (@run_prelude P O ready))
                         (events (@run_prelude P O ready)) (Ok tt))
    by (vm_compute; reflexivity).
  assert (H3 : @spawn O (@main_command P (self ready))
                      (host (final (@run_prelude P O ready))) =
               (fst (@spawn O (@main_command P (self ready))
                            (host (final (@run_prelude P O ready)))),
                Ok (mkProc 1 "" ""))) by (vm_compute; reflexivity).
  destruct (@run_scans_once P O ready _ _ _ _ H1 H2 H3) as (Hexec & Hfin).
  rewrite Hexec, Hfin. split; vm_compute; reflexivity.
Defined.

Lemma run_twice_raises_witness :
  result (@run (quiet_parent update_command) (scripted healthy 0 0)
               (final (@run (quiet_parent update_command) (scripted healthy 0 0)
                            ready))) =
  Raised (RuntimeError "[ZAP SCANNER]: ERROR, not ready to run" []).
Proof.
  set (P := quiet_parent update_command). set (O := scripted healthy 0 0).
  assert (H1 : state (self ready) = READY) by reflexivity.
  assert (H2 : @run_prelude P O ready =
               mkOutcome (final (@run_prelude P O ready))
                         (events (@run_prelude P O ready)) (Ok tt))
    by (vm_compute; reflexivity).
  assert (H3 : @spawn O (@main_command P (self (final (@run_prelude P O ready))))
                      (host (final (@run_prelude P O ready))) =
               (fst (@spawn O
                       (@main_command P (self (final (@run_prelude P O ready))))
                       (host (final (@run_prelude P O ready)))),
                Ok (mkProc 0 "" ""))) by (vm_compute; reflexivity).
  rewrite (@run_twice_raises P O ready _ _ _ _ H1 H2 H3). reflexivity.
Defined.

Lemma cleanup_from_processed_witness :
  state (self (final (@cleanup (quiet_parent []) processed))) = CLEANEDUP.
Proof.
  assert (H : state (self processed) = PROCESSED) by reflexivity.
  destruct (@cleanup_from_processed (quiet_parent []) processed H) as (_ & _ & E).
  rewrite E. reflexivity.
Defined.

Lemma error_state_blocks_cleanup_witness :
  result (bind (@postprocess (quiet_parent [])) (fun _ => @cleanup (quiet_parent []))
               failed) =
  Raised (RuntimeError "No cleanning up as ZAP did not processed results." []).
Proof.
  assert (H1 : @Zap_postprocess (quiet_parent []) failed = mkOutcome failed [] (Ok tt))
    by reflexivity.
  assert (H2 : state (self failed) = ERROR) by reflexivity.
  rewrite (@error_state_blocks_cleanup (quiet_parent []) failed failed [] H1 H2).
  reflexivity.
Defined.

Lemma create_home_outcome_witness :
  environ
    (host (final (@_create_home_if_needed (quiet_parent [])
                    (mkStore (scanner UNCONFIGURED []) readonly_home))))
    !! "HOME" = Some "/tmp/rapidast_zap_home"
  /\ result (@_create_home_if_needed (quiet_parent [])
               (mkStore (scanner UNCONFIGURED []) homeless)) =
     Raised (KeyError "HOME").
Proof.
  split.
  - set (s := mkStore (scanner UNCONFIGURED []) readonly_home).
    destruct (@create_home_outcome (quiet_parent []) s) as (_ & _ & H).
    assert (H1 : environ (host s) !! "HOME" = Some "/") by (vm_compute; reflexivity).
    assert (H2 : "/" ∉ writable (host s)) by (apply not_elem_of_empty).
    assert (H3 : @_create_temp_dir (quiet_parent []) "home" s =
                 mkOutcome s [] (Ok "/tmp/rapidast_zap_home")) by reflexivity.
    destruct (H "/" s [] "/tmp/rapidast_zap_home" H1 H2 H3) as (_ & _ & _ & E & _).
    exact E.
  - set (s := mkStore (scanner UNCONFIGURED []) homeless).
    destruct (@create_home_outcome (quiet_parent []) s) as (H & _).
    rewrite H; [reflexivity | vm_compute; reflexivity].
Defined.

Lemma setup_raises_after_ready_witness :
  result (@setup (quiet_parent []) (scripted healthy 0 0)
                 (mkStore (scanner UNCONFIGURED []) homeless)) =
    Raised (KeyError "HOME")
  /\ state (self (final (@setup (quiet_parent []) (scripted healthy 0 0)
                                (mkStore (scanner UNCONFIGURED []) homeless)))) =
     READY.
Proof.
  set (P := quiet_parent []). set (O := scripted healthy 0 0).
  set (s := mkStore (scanner UNCONFIGURED []) homeless).
  assert (H1 : state (self s) = UNCONFIGURED) by reflexivity.
  assert (H2 : bind (@Zap_setup P) (fun _ => @copy_policy P O) s =
               mkOutcome s [] (Ok tt)) by (vm_compute; reflexivity).
  assert (H3 : state (self s) <> ERROR) by discriminate.
  assert (H4 : environ (host s) !! "HOME" = None) by (vm_compute; reflexivity).
  rewrite (@setup_raises_after_ready P O s s [] H1 H2 H3 H4).
  split; reflexivity.
Defined.

Lemma setup_twice_raises_witness :
  result (@setup (quiet_parent []) (scripted healthy 0 0)
                 (final (@setup (quiet_parent []) (scripted healthy 0 0) fresh))) =
  Raised (RuntimeError "ZAP setup encounter an unexpected state: {self.state}"
                       [AState READY]).
Proof.
  set (P := quiet_parent []). set (O := scripted healthy 0 0).
  assert (H1 : state (self fresh) = UNCONFIGURED) by reflexivity.
  assert (H2 : forall name s',
             state (self (final (@_create_temp_dir P name s'))) = state (self s'))
    by (intros name s'; reflexivity).
  assert (H3 : bind (@Zap_setup P) (fun _ => @copy_policy P O) fresh =
               mkOutcome fresh [] (Ok tt)) by (vm_compute; reflexivity).
  rewrite (@setup_twice_raises P O fresh fresh [] H1 H2 H3). reflexivity.
Defined.

Lemma pid_limit_warns_iff_witness :
  filter is_warning
    (events (@check_pid_limit (scripted healthy 0 0)
               (mkStore (scanner READY []) (machine "Linux" None (Some "10000")))))
  <> [].
Proof.
  set (s := mkStore (scanner READY []) (machine "Linux" None (Some "10000"))).
  destruct (@pid_limit_warns_iff (scripted healthy 0 0) s) as (_ & _ & _ & H).
  apply H. exists "10000". split; [reflexivity |]. split; [discriminate |].
  intros n Hn. vm_compute in Hn. injection Hn as <-. lia.
Defined.

Lemma shared_memory_warns_iff_witness :
  events (check_shared_memory
            (mkStore (scanner READY []) (machine "Linux" None (Some "max")))) =
  [DiskUsage "/dev/shm/";
   Log WARNING "/dev/shm not present. Unable to calcuate shared memory size" []].
Proof.
  set (s := mkStore (scanner READY []) (machine "Linux" None (Some "max"))).
  destruct (shared_memory_warns_iff s) as (_ & _ & _ & H).
  apply H. reflexivity.
Defined.

Lemma setup_ajax_spider_not_linux_witness :
  events (@_setup_ajax_spider (quiet_parent []) (scripted healthy 0 0)
            (mkStore (scanner READY ajax_entries)
                     (machine "Darwin" (Some 1024) (Some "100")))) =
  [PlatformSystem].
Proof.
  set (s := mkStore (scanner READY ajax_entries)
                    (machine "Darwin" (Some 1024) (Some "100"))).
  assert (H1 : is_False (my_conf (self s) "spiderAjax" (PBool false)) = false)
    by (vm_compute; reflexivity).
  assert (H2 : system (host s) <> "Linux") by discriminate.
  rewrite (@setup_ajax_spider_not_linux (quiet_parent []) (scripted healthy 0 0)
                                        s H1 H2).
  reflexivity.
Defined.

Lemma setup_ajax_spider_noop_iff_witness :
  @_setup_ajax_spider (quiet_parent []) (scripted healthy 0 0)
    (mkStore (scanner READY none_entries) linux) <>
  mkOutcome (mkStore (scanner READY none_entries) linux) [] (Ok tt).
Proof.
  intros H.
  apply (@setup_ajax_spider_noop_iff (quiet_parent []) (scripted healthy 0 0)) in H.
  vm_compute in H. discriminate H.
Defined.

Lemma copy_policy_outcome_witness :
  @copy_policy (quiet_parent []) (scripted healthy 0 0)
               (mkStore (scanner UNCONFIGURED active_entries) linux) =
  after [Mkdir "/tmp/zaphome/policies"]
    (@_include_file (quiet_parent [])
       "/opt/rapidast/scanners/zap/policies/API-scan-minimal.policy"
       "/tmp/zaphome/policies/API-scan-minimal.policy"
       (mkStore (scanner UNCONFIGURED active_entries)
                (with_files ({["/tmp/zaphome/policies"]} ∪ files linux) linux))).
Proof.
  set (P := quiet_parent []). set (O := scripted healthy 0 0).
  set (s := mkStore (scanner UNCONFIGURED active_entries) linux).
  destruct (@copy_policy_outcome P O s) as (_ & _ & H).
  assert (H1 : my_conf (self s) "activeScan" (PBool false) <> PBool false)
    by (vm_compute; discriminate).
  assert (H2 : host_policies_dir (self s) ∉ files (host s))
    by (vm_compute; intros E; discriminate E).
  rewrite (H H1 H2). vm_compute. reflexivity.
Defined.

Lemma setup_existing_policies_dir_witness :
  result (@setup (quiet_parent []) (scripted healthy 0 0)
                 (mkStore (scanner UNCONFIGURED active_entries) stale_home)) =
    Raised (FileExistsError "/tmp/zaphome/policies")
  /\ state (self (final (@setup (quiet_parent []) (scripted healthy 0 0)
                          (mkStore (scanner UNCONFIGURED active_entries) stale_home))))
     = UNCONFIGURED.
Proof.
  set (P := quiet_parent []). set (O := scripted healthy 0 0).
  set (s := mkStore (scanner UNCONFIGURED active_entries) stale_home).
  assert (H1 : state (self s) = UNCONFIGURED) by reflexivity.
  assert (H2 : @Zap_setup P s = mkOutcome s [] (Ok tt)) by reflexivity.
  assert (H3 : my_conf (self s) "activeScan" (PBool false) <> PBool false)
    by (vm_compute; discriminate).
  assert (H4 : host_policies_dir (self s) ∈ files (host s))
    by (apply elem_of_union_l, elem_of_singleton; reflexivity).
  rewrite (@setup_existing_policies_dir P O s s [] H1 H2 H3 H4).
  split; reflexivity.
Defined.

Lemma setup_zap_cli_fresh_witness :
  zap_cli (self (final (_setup_zap_cli appending ready))) =
  [PStr "zap.sh"; PStr "-dir"; PStr "/tmp/zaphome";
   PStr "-cmd"; PStr "-autorun"; PStr "/tmp/work/af.yaml"].
Proof.
  destruct (setup_zap_cli_fresh appending ready) as (_ & H).
  erewrite (H _ [] [PStr "-cmd"; PStr "-autorun"; PStr "/tmp/work/af.yaml"]);
    [| vm_compute; reflexivity | vm_compute; reflexivity].
  vm_compute. reflexivity.
Defined.

Lemma add_env_outcome_witness :
  environ (host (final (_add_env "ZAP_PORT" (Some "8080") ready))) !! "HOME" =
  Some "/root".
Proof.
  destruct (add_env_outcome "ZAP_PORT" "8080" ready) as (_ & (_ & _ & _ & _ & _ & H) & _).
  rewrite H by discriminate. vm_compute. reflexivity.
Defined.
